(** * L1 activity bot: a shallow embedding of the chat widget's logic

    The development follows the React sources:
    - [Js]: the few JavaScript notions the components rely on (values and
      truthiness, objects, the string built-ins [trim], [toLowerCase] and
      [includes], [Array.prototype.sort]);
    - [Rt]: the run-time world of the widget (hook state, the log of issued
      HTTP requests, pending [setTimeout] callbacks) and the monad in which
      the event handlers are written;
    - [Api]: Services/api.js;
    - [ChatBot]: components/ChatBot.js;
    - [InstanceDetailsTable]: components/InstanceDetailsTable.js;
    - [VolumeConversionModal]: components/VolumeConversionModal.js.

    Strings are sequences of code units below 256 (the Latin-1 range), which
    is where every keyword and every literal compared against lives. *)

From Stdlib Require Import ZArith Ascii String List Bool Lia Permutation.
From stdpp Require Import base option list gmap strings pretty.

Local Open Scope string_scope.
Local Open Scope list_scope.
Local Open Scope Z_scope.

(* ===================================================================== *)
(** ** JavaScript values, objects and string built-ins                    *)
(* ===================================================================== *)

Module Js.

(** Values found in the JSON payloads and in the objects built by the
    components.  An array of strings is all the code ever puts in a field
    ([volumeIds]). *)
Inductive value : Type :=
  | Undefined
  | Null
  | Bool (b : bool)
  | Num (n : Z)
  | Str (s : string)
  | Arr (l : list string).

#[global] Instance value_eq_dec : EqDecision value.
Proof. solve_decision. Defined.

#[global] Instance value_inhabited : Inhabited value := populate Undefined.

(** ToBoolean. *)
Definition truthy (v : value) : bool :=
  match v with
  | Undefined | Null => false
  | Bool b => b
  | Num n => negb (n =? 0)
  | Str s => negb (String.eqb s "")
  | Arr _ => true
  end.

(** [a === b] on the values above (arrays are compared by content, which
    no code path here depends on). *)
Definition strict_eq (a b : value) : bool := bool_decide (a = b).

(** An object is a finite map from property names to values; reading a
    missing property yields [undefined]. *)
Abbreviation obj := (gmap string value).

Definition get (o : obj) (k : string) : value := default Undefined (o !! k).

(** [{...o, k: v}] *)
Definition spread_with (o : obj) (k : string) (v : value) : obj := <[k := v]> o.

(** [a || b] *)
Definition or_else (a b : value) : value := if truthy a then a else b.

(** Template-literal interpolation of a value. *)
Definition to_string (v : value) : string :=
  match v with
  | Undefined => "undefined"
  | Null => "null"
  | Bool true => "true"
  | Bool false => "false"
  | Num n => pretty n
  | Str s => s
  | Arr l => String.concat "," l
  end.

(** *** Characters *)

Definition code (c : ascii) : N := N_of_ascii c.

(** WhiteSpace and LineTerminator code units below 256: TAB, LF, VT, FF, CR,
    SP and NBSP. *)
Definition is_white_space (c : ascii) : bool :=
  let n := code c in
  ((9 <=? n) && (n <=? 13) || (n =? 32) || (n =? 160))%N.

(** Lower-case mapping of one code unit: A-Z, and the Latin-1 capitals
    U+00C0..U+00DE except the multiplication sign U+00D7. *)
Definition lower_char (c : ascii) : ascii :=
  let n := code c in
  if ((65 <=? n) && (n <=? 90)
      || (192 <=? n) && (n <=? 222) && negb (n =? 215))%N
  then ascii_of_N (n + 32) else c.

(** *** String.prototype methods *)

Fixpoint toLowerCase (s : string) : string :=
  match s with
  | "" => ""
  | String c s' => String (lower_char c) (toLowerCase s')
  end.

Fixpoint trimStart (s : string) : string :=
  match s with
  | "" => ""
  | String c s' => if is_white_space c then trimStart s' else s
  end.

Fixpoint trimEnd (s : string) : string :=
  match s with
  | "" => ""
  | String c s' =>
      let r := trimEnd s' in
      if is_white_space c && String.eqb r "" then "" else String c r
  end.

Definition trim (s : string) : string := trimEnd (trimStart s).

Fixpoint startsWith (s k : string) : bool :=
  match k, s with
  | "", _ => true
  | String _ _, "" => false
  | String a k', String b s' => Ascii.eqb a b && startsWith s' k'
  end.

(** [s.includes(k)] *)
Fixpoint includes (s k : string) : bool :=
  startsWith s k ||
  match s with
  | "" => false
  | String _ s' => includes s' k
  end.

(** [keywords.some(p)] *)
Definition some {A} (p : A -> bool) (l : list A) : bool := existsb p l.

(** *** Array.prototype.sort

    ECMAScript fixes the result of [sort] only when [comparefn] is a
    consistent comparator; the sort is then stable.  Otherwise the order is
    implementation-defined.  Two stable insertion sorts stand for the
    engines: both insert each element [x] into the sorted rest of the array,
    and they differ in the question they put to [comparefn].  [sort_lt] moves the
    later element [y] before the earlier [x] when [comparefn(y, x) < 0];
    [sort_gt] does so when [comparefn(x, y) > 0].  On a consistent
    comparator the two questions have the same answer. *)
Section Sort.
Context {A : Type} (comparefn : A -> A -> Z).

Fixpoint insert_lt (x : A) (sorted : list A) : list A :=
  match sorted with
  | [] => [x]
  | y :: ys => if comparefn y x <? 0 then y :: insert_lt x ys else x :: y :: ys
  end.

Fixpoint insert_gt (x : A) (sorted : list A) : list A :=
  match sorted with
  | [] => [x]
  | y :: ys => if 0 <? comparefn x y then y :: insert_gt x ys else x :: y :: ys
  end.

Definition sort_lt (l : list A) : list A := foldr insert_lt [] l.
Definition sort_gt (l : list A) : list A := foldr insert_gt [] l.
End Sort.

End Js.

(* ===================================================================== *)
(** ** The run-time world of the widget                                   *)
(* ===================================================================== *)

Module Rt.
Import Js.

(** *** Transcript *)

Inductive Sender := User | Bot.
Inductive MsgType := Text | AccountGroups | InstancesTable.

(** The [data] property of a message: absent, the account groups, or
    [{ instances, accountId }]. *)
Inductive MsgData :=
  | NoData
  | GroupsData (groups : list obj)
  | TableData (instances : list obj) (accountId : value).

Record Message := mkMessage {
  from : Sender;
  text : string;
  type : MsgType;
  data : MsgData
}.

#[global] Instance Sender_eq_dec : EqDecision Sender.
Proof. solve_decision. Defined.
#[global] Instance MsgType_eq_dec : EqDecision MsgType.
Proof. solve_decision. Defined.
#[global] Instance MsgData_eq_dec : EqDecision MsgData.
Proof. solve_decision. Defined.
#[global] Instance Message_eq_dec : EqDecision Message.
Proof. solve_decision. Defined.

Definition textMessage (who : Sender) (t : string) : Message :=
  mkMessage who t Text NoData.

(** *** Hook state *)

Inductive ConversationState := Welcome | AccountSelection | InstanceManagement.

#[global] Instance ConversationState_eq_dec : EqDecision ConversationState.
Proof. solve_decision. Defined.

(** [setTimeout] callbacks used by the components. *)
Inductive Task :=
  | AddMessage (text : string) (sender : string)
  | FetchAccountGroups
  | RefreshInstances.

(** A [fetch] that was issued. *)
Record Request := mkRequest {
  endpoint : string;
  method : string;
  body : option obj
}.

(** The [useState] cells of ChatBot and of InstanceDetailsTable that the
    handlers below read or write, the log of issued requests, and the
    pending timers with their delays in milliseconds. *)
Record World := mkWorld {
  sessionId : string;
  messages : list Message;
  input : string;
  loading : bool;
  conversationState : ConversationState;
  accountGroups : list obj;
  selectedAccount : value;
  instances : list obj;
  alarmModal : option obj;          (* alarmModal.instance *)
  alarmModalShow : bool;            (* alarmModal.show *)
  alarmLoading : bool;
  refreshing : bool;
  requests : list Request;
  timers : list (Z * Task)
}.

Definition setMessages (f : list Message -> list Message) (w : World) : World :=
  mkWorld (sessionId w) (f (messages w)) (input w) (loading w)
    (conversationState w) (accountGroups w) (selectedAccount w) (instances w)
    (alarmModal w) (alarmModalShow w) (alarmLoading w) (refreshing w)
    (requests w) (timers w).

Definition setInput (v : string) (w : World) : World :=
  mkWorld (sessionId w) (messages w) v (loading w)
    (conversationState w) (accountGroups w) (selectedAccount w) (instances w)
    (alarmModal w) (alarmModalShow w) (alarmLoading w) (refreshing w)
    (requests w) (timers w).

Definition setLoading (v : bool) (w : World) : World :=
  mkWorld (sessionId w) (messages w) (input w) v
    (conversationState w) (accountGroups w) (selectedAccount w) (instances w)
    (alarmModal w) (alarmModalShow w) (alarmLoading w) (refreshing w)
    (requests w) (timers w).

Definition setConversationState (v : ConversationState) (w : World) : World :=
  mkWorld (sessionId w) (messages w) (input w) (loading w)
    v (accountGroups w) (selectedAccount w) (instances w)
    (alarmModal w) (alarmModalShow w) (alarmLoading w) (refreshing w)
    (requests w) (timers w).

Definition setAccountGroups (v : list obj) (w : World) : World :=
  mkWorld (sessionId w) (messages w) (input w) (loading w)
    (conversationState w) v (selectedAccount w) (instances w)
    (alarmModal w) (alarmModalShow w) (alarmLoading w) (refreshing w)
    (requests w) (timers w).

Definition setSelectedAccount (v : value) (w : World) : World :=
  mkWorld (sessionId w) (messages w) (input w) (loading w)
    (conversationState w) (accountGroups w) v (instances w)
    (alarmModal w) (alarmModalShow w) (alarmLoading w) (refreshing w)
    (requests w) (timers w).

(** [setInstances(f)] with an updater function; [setInstances(l)] is
    [setInstances (fun _ => l)]. *)
Definition setInstances (f : list obj -> list obj) (w : World) : World :=
  mkWorld (sessionId w) (messages w) (input w) (loading w)
    (conversationState w) (accountGroups w) (selectedAccount w) (f (instances w))
    (alarmModal w) (alarmModalShow w) (alarmLoading w) (refreshing w)
    (requests w) (timers w).

Definition setAlarmModal (show : bool) (inst : option obj) (w : World) : World :=
  mkWorld (sessionId w) (messages w) (input w) (loading w)
    (conversationState w) (accountGroups w) (selectedAccount w) (instances w)
    inst show (alarmLoading w) (refreshing w)
    (requests w) (timers w).

Definition setAlarmLoading (v : bool) (w : World) : World :=
  mkWorld (sessionId w) (messages w) (input w) (loading w)
    (conversationState w) (accountGroups w) (selectedAccount w) (instances w)
    (alarmModal w) (alarmModalShow w) v (refreshing w)
    (requests w) (timers w).

Definition setRefreshing (v : bool) (w : World) : World :=
  mkWorld (sessionId w) (messages w) (input w) (loading w)
    (conversationState w) (accountGroups w) (selectedAccount w) (instances w)
    (alarmModal w) (alarmModalShow w) (alarmLoading w) v
    (requests w) (timers w).

Definition logRequest (r : Request) (w : World) : World :=
  mkWorld (sessionId w) (messages w) (input w) (loading w)
    (conversationState w) (accountGroups w) (selectedAccount w) (instances w)
    (alarmModal w) (alarmModalShow w) (alarmLoading w) (refreshing w)
    (requests w ++ [r]) (timers w).

Definition setTimers (f : list (Z * Task) -> list (Z * Task)) (w : World) : World :=
  mkWorld (sessionId w) (messages w) (input w) (loading w)
    (conversationState w) (accountGroups w) (selectedAccount w) (instances w)
    (alarmModal w) (alarmModalShow w) (alarmLoading w) (refreshing w)
    (requests w) (f (timers w)).

(** *** Exceptions and the handler monad *)

Record Error := mkError { name : string; message : string }.

(** [new Error(msg)] *)
Definition newError (msg : string) : Error := mkError "Error" msg.
(** [new Error(v)]: the message is empty when [v] is [undefined]. *)
Definition errorFrom (v : value) : Error :=
  match v with
  | Undefined => newError ""
  | _ => newError (to_string v)
  end.
(** Reading a property of [undefined] or [null]. *)
Definition typeError (msg : string) : Error := mkError "TypeError" msg.

Inductive completion (A : Type) :=
  | Normal (a : A)
  | Throw (e : Error).
Arguments Normal {A} a.
Arguments Throw {A} e.

(** A handler runs to completion on the world: awaited calls are resolved
    by the backend oracle at the point of the call. *)
Definition M (A : Type) : Type := World -> World * completion A.

#[global] Instance M_ret : MRet M := fun A a w => (w, Normal a).
#[global] Instance M_bind : MBind M := fun A B k m w =>
  match m w with
  | (w', Normal a) => k a w'
  | (w', Throw e) => (w', Throw e)
  end.

Definition throw {A} (e : Error) : M A := fun w => (w, Throw e).

(** A state update ([setX(...)], logging a request, arming a timer). *)
Definition update (f : World -> World) : M unit := fun w => (f w, Normal tt).

(** Reading a hook cell. *)
Definition read {A} (f : World -> A) : M A := fun w => (w, Normal (f w)).

(** [try { body } catch (error) { handler }] *)
Definition try_catch {A} (body : M A) (handler : Error -> M A) : M A := fun w =>
  match body w with
  | (w', Normal a) => (w', Normal a)
  | (w', Throw e) => handler e w'
  end.

(** [try { body } finally { fin }], for a [fin] that does not throw. *)
Definition finally {A} (body : M A) (fin : World -> World) : M A := fun w =>
  let '(w', c) := body w in (fin w', c).

Definition setTimeout (t : Task) (delay : Z) : M unit :=
  update (setTimers (fun ts => ts ++ [(delay, t)])).

(** The world and the outcome of running a handler. *)
Definition exec {A} (m : M A) (w : World) : World := fst (m w).
Definition outcome {A} (m : M A) (w : World) : completion A := snd (m w).

(** *** The backend

    What the server answers to each endpoint.  A backend with fixed data is
    one value of [Backend]. *)

Record Response (B : Type) := mkResponse {
  status : Z;
  statusText : string;
  json : option B;                 (* None: response.json() rejects *)
  errorField : value               (* the [error] property of the body *)
}.
Arguments mkResponse {B}.
Arguments status {B}.
Arguments statusText {B}.
Arguments json {B}.
Arguments errorField {B}.

(** [response.ok] *)
Definition ok {B} (r : Response B) : bool := (200 <=? status r) && (status r <=? 299).

Inductive FetchOutcome (B : Type) :=
  | Rejected (e : Error)           (* fetch itself rejects *)
  | Responded (r : Response B).
Arguments Rejected {B} e.
Arguments Responded {B} r.

Record AccountsBody := mkAccountsBody {
  b_accountGroups : option (list obj)
}.

Record InstancesBody := mkInstancesBody {
  b_instances : option (list obj);
  b_summary : option obj
}.

Record ConverseBody := mkConverseBody {
  b_message : value
}.

Record AlarmDetails := mkAlarmDetails {
  successfulAlarms : value;
  totalAlarms : value;
  createdAlarms : option (list string)
}.

Record AlarmsBody := mkAlarmsBody {
  b_success : value;
  b_partialSuccess : value;
  b_alarmMessage : value;
  b_alarmDetails : option AlarmDetails
}.

Record Backend := mkBackend {
  discover_accounts : FetchOutcome AccountsBody;
  discover_instances : string -> FetchOutcome InstancesBody;
  converse : obj -> FetchOutcome ConverseBody;
  configure_alarms : obj -> FetchOutcome AlarmsBody;
  convert_volumes : obj -> FetchOutcome unit
}.

End Rt.

(* ===================================================================== *)
(** ** Services/api.js                                                    *)
(* ===================================================================== *)

Module Api.
Import Js Rt.

(** What [apiCall] and [sendMessage] resolve to:
    [{ status, data }] or [{ status, message }]. *)
Record ApiResult (B : Type) := mkApiResult {
  r_status : string;
  r_data : option B;
  r_message : value;
  r_intent : value
}.
Arguments mkApiResult {B}.
Arguments r_status {B}.
Arguments r_data {B}.
Arguments r_message {B}.
Arguments r_intent {B}.

(** What [configureAlarms] resolves to. *)
Record AlarmResult := mkAlarmResult {
  success : bool;
  partialSuccess : bool;
  alarmMessage : value;
  alarmDetails : option AlarmDetails
}.

Section WithBase.
(** [BASE], the result of [getBaseURL()]. *)
Variable BASE : string.

(** [await fetch(url, ...)] followed by [await response.json()]. *)
Definition fetch_json {B} (url meth : string) (payload : option obj)
    (answer : FetchOutcome B) : M (Response B * B) :=
  update (logRequest (mkRequest url meth payload));;
  match answer with
  | Rejected e => throw e
  | Responded r =>
      match json r with
      | None => throw (mkError "SyntaxError" "Unexpected end of JSON input")
      | Some d => mret (r, d)
      end
  end.

Definition apiCall {B} (endpoint meth : string) (payload : option obj)
    (answer : FetchOutcome B) : M (ApiResult B) :=
  let fullUrl := BASE +:+ endpoint in
  try_catch
    ('(response, data) ← fetch_json fullUrl meth payload answer;
     if negb (ok response) then
       throw (newError (to_string (or_else (errorField response)
         (Str ("HTTP " +:+ pretty (status response) +:+ ": " +:+ statusText response)))))
     else mret (mkApiResult "success" (Some data) Undefined Undefined))
    (fun error =>
       if String.eqb (name error) "TypeError" && includes (message error) "fetch" then
         throw (newError ("Cannot connect to Flask server at " +:+ BASE +:+
           ". Please ensure Flask is running and port 5000 is open in Security Group."))
       else throw error).

Definition sendMessage (be : Backend) (sessionId message : string)
    : M (ApiResult ConverseBody) :=
  let payload : obj := {[ "session_id" := Str sessionId; "message" := Str message ]} in
  try_catch
    (apiCall "/api/converse" "POST" (Some payload) (converse be payload))
    (fun error =>
       mret (mkApiResult "error" None
               (or_else (Str (Rt.message error)) (Str "Failed to send message"))
               Undefined)).

Definition discoverAccounts (be : Backend) : M (ApiResult AccountsBody) :=
  try_catch
    (apiCall "/api/discover-accounts" "GET" None (discover_accounts be))
    (fun error =>
       throw (newError ("Failed to discover accounts: " +:+ message error))).

Definition discoverInstances (be : Backend) (accountId : value)
    : M (ApiResult InstancesBody) :=
  try_catch
    (if negb (truthy accountId) then throw (newError "Account ID is required")
     else
       apiCall ("/api/discover-instances/" +:+ to_string accountId) "GET" None
         (discover_instances be (to_string accountId)))
    (fun error =>
       throw (newError ("Failed to discover instances for account " +:+
         to_string accountId +:+ ": " +:+ message error))).

(** The validation shared by [deployCloudWatchAgent], [configureAlarms]
    and [convertVolumes]. *)
Definition missingRequired (data : obj) : bool :=
  negb (truthy (get data "instanceId"))
  || negb (truthy (get data "accountId"))
  || negb (truthy (get data "region")).

(** [data.platform?.toLowerCase().includes('windows') ? 'Overall' : 'Disk'] *)
Definition utilizationKind (platform : value) : M string :=
  match platform with
  | Undefined | Null => mret "Disk"
  | Str p => mret (if includes (toLowerCase p) "windows" then "Overall" else "Disk")
  | _ => throw (typeError "data.platform?.toLowerCase is not a function")
  end.

Definition configureAlarms (be : Backend) (data : obj) : M AlarmResult :=
  try_catch
    (if missingRequired data then
       throw (newError "Missing required fields: instanceId, accountId, or region")
     else
       let fullUrl := BASE +:+ "/api/configure-alarms" in
       '(response, result) ← fetch_json fullUrl "POST" (Some data) (configure_alarms be data);
       if ok response && truthy (b_success result) then
         details ←
           match b_alarmDetails result with
           | Some d => mret d
           | None =>
               let id := to_string (get data "instanceId") in
               kind ← utilizationKind (get data "platform");
               mret (mkAlarmDetails (Num 4) (Num 4)
                 (Some [ id +:+ "-CPU-Utilization";
                         id +:+ "-Memory-Utilization";
                         id +:+ "-" +:+ kind +:+ "-Utilization";
                         id +:+ "-StatusCheck-System" ]))
           end;
         mret (mkAlarmResult true false (b_alarmMessage result) (Some details))
       else if (status response =? 207) && truthy (b_partialSuccess result) then
         mret (mkAlarmResult false true (b_alarmMessage result) (b_alarmDetails result))
       else
         throw (newError (to_string (or_else (errorField response)
                                       (Str "Alarm configuration failed")))))
    (fun error =>
       throw (newError ("Failed to configure alarms: " +:+ message error))).

Definition convertVolumes (be : Backend) (data : obj) : M (ApiResult unit) :=
  try_catch
    (if missingRequired data then
       throw (newError "Missing required fields: instanceId, accountId, or region")
     else
       apiCall "/api/convert-volumes" "POST" (Some data) (convert_volumes be data))
    (fun error =>
       throw (newError ("Failed to convert volumes: " +:+ message error))).

End WithBase.
End Api.

(* ===================================================================== *)
(** ** components/ChatBot.js                                              *)
(* ===================================================================== *)

Module ChatBot.
Import Js Rt Api.

Definition welcomeText : string :=
  "Hi! Welcome to the L1 Activity Bot. I'm your virtual assistant. I can help you discover instances across your AWS accounts and configure CloudWatch agents, set up monitoring alarms, change instance types, and convert GP2 volumes to GP3 for cost savings!".

(** The state of a freshly mounted widget. *)
Definition initial (sid : string) : World :=
  mkWorld sid [textMessage Bot welcomeText] "" false Welcome [] Null []
    None false false false [] [].

(** [addMessage(text, sender)] *)
Definition addMessage (t : string) (sender : string) : M unit :=
  let newMessage :=
    textMessage (if String.eqb sender "user" then User else Bot) t in
  update (setMessages (fun prev => prev ++ [newMessage])).

(** *** Intent detection *)

Definition cloudWatchKeywords : list string :=
  ["cloudwatch"; "configure"; "agent"; "install"; "setup"; "monitor"; "start"; "deploy"].
Definition alarmKeywords : list string :=
  ["alarm"; "alert"; "threshold"; "notification"; "warning"; "metric"].
Definition instanceTypeChangeKeywords : list string :=
  ["change"; "resize"; "upgrade"; "instance type"; "scale"; "modify instance"].
Definition volumeConversionKeywords : list string :=
  ["volume"; "gp2"; "gp3"; "storage"; "convert"; "migrate"; "cost saving"; "optimize storage"].

Definition checkCloudWatchIntent (userInput : string) : bool :=
  some (fun keyword => includes (toLowerCase userInput) keyword) cloudWatchKeywords.

Definition checkAlarmIntent (userInput : string) : bool :=
  some (fun keyword => includes (toLowerCase userInput) keyword) alarmKeywords.

Definition checkInstanceTypeChangeIntent (userInput : string) : bool :=
  some (fun keyword => includes (toLowerCase userInput) keyword) instanceTypeChangeKeywords.

Definition checkVolumeConversionIntent (userInput : string) : bool :=
  some (fun keyword => includes (toLowerCase userInput) keyword) volumeConversionKeywords.

Inductive Intent :=
  | VolumeConversion
  | InstanceTypeChange
  | CloudWatchConfiguration
  | AlarmConfiguration
  | GenericChat.

#[global] Instance Intent_eq_dec : EqDecision Intent.
Proof. solve_decision. Defined.

(** The branch of the [if / else if] chain of [handleSend] that [value]
    selects. *)
Definition handleSend_branch (value : string) : Intent :=
  if checkVolumeConversionIntent value then VolumeConversion
  else if checkInstanceTypeChangeIntent value then InstanceTypeChange
  else if checkCloudWatchIntent value then CloudWatchConfiguration
  else if checkAlarmIntent value then AlarmConfiguration
  else GenericChat.

(** *** Message texts *)

Definition accountsApology : string :=
  "Sorry, I encountered an error while fetching your accounts. Please try again.".
Definition instancesApology : string :=
  "Sorry, I encountered an error while scanning instances. Please try again.".

Definition volumeConversionReply : string :=
  "🎯 **Great choice! GP2 to GP3 volume conversion can save you up to 20% on storage costs while improving performance.**

I'll help you convert your GP2 volumes to GP3! This optimization offers:

🔧 **Process:**
• No downtime required - conversion happens live
• Takes 5-15 minutes per volume
• Automatic performance optimization

Let me show you your instances so you can select volumes for conversion:".
Definition instanceTypeChangeReply : string :=
  "🔧 **I'll help you change instance types safely!** 

⚠️ **Important Notes:**
• Instance type changes require a stop/start cycle
• Expect 2-5 minutes of downtime during the change
• All data on instance store volumes will be lost
• EBS volumes and network settings are preserved

🎯 **Benefits:**
• Optimize performance for your workload
• Right-size instances for cost efficiency
• Upgrade to newer generation instances

Let me show you your instances so you can select which ones need type changes:".
Definition cloudWatchReply : string := "I'll scan your accounts ".
Definition alarmReply : string :=
  "I'll help you configure CloudWatch alarms! First, let me show you your instances so you can select which ones need alarm configuration...".
Definition suggestions : string :=
  "

💡 **Try saying:**
• **'configure cloudwatch agent'** - Install monitoring
• **'set up alarms'** - Configure monitoring alerts  
• **'change instance type'** - Resize instances
• **'convert volumes to GP3'** - Optimize storage costs
• **'optimize storage'** - Convert GP2 volumes for savings
• **'show my instances'** - View all instances".
Definition sendErrorText : string :=
  "Error communicating with backend. Please try again.

💡 **Available commands:**
• 'configure cloudwatch'
• 'set up alarms'  
• 'change instance type'
• 'convert volumes to GP3'".

Definition instancesFoundText (total unconfigured configured alarms : string) : string :=
  "Found " +:+ total +:+ " instances in total:
        
🔧 " +:+ unconfigured
  +:+ " instances need CloudWatch agent installation
✅ " +:+ configured
  +:+ " instances have CloudWatch agent configured
🎯 " +:+ alarms
  +:+ " instances have alarms configured

💡 **Available Actions:**
• **CloudWatch Agent:** Install monitoring on unconfigured instances
• **Volume Conversion:** Convert GP2 volumes to GP3 for cost savings (up to 20%)
• **Instance Type Change:** Resize instances for better performance
• **Alarm Configuration:** Set up monitoring thresholds

Use the action buttons in the table below to manage your instances:".

(** *** Handlers *)

Section Handlers.
Variable BASE : string.
(** The backend the widget talks to. *)
Variable be : Backend.

(** The two lines of the refresh that rewrite the payload of the
    instances-table messages of the selected account. *)
Definition refreshTablePayload (selected : value) (fresh : list obj)
    (msg : Message) : Message :=
  match type msg, data msg with
  | InstancesTable, TableData _ accountId =>
      if strict_eq accountId selected
      then mkMessage (from msg) (text msg) (type msg) (TableData fresh accountId)
      else msg
  | _, _ => msg
  end.

(** [handleRefreshInstances], the function handed to the table as
    [onRefresh].  It resolves to the fetched list, or to [undefined] when
    no account is selected. *)
Definition handleRefreshInstances : M (option (list obj)) :=
  selected ← read selectedAccount;
  if negb (truthy selected) then mret None
  else
    try_catch
      (result ← discoverInstances BASE be selected;
       if String.eqb (r_status result) "success" then
         match r_data result with
         | None => throw (typeError "Cannot read properties of undefined (reading 'instances')")
         | Some d =>
             match b_instances d with
             | Some fresh =>
                 update (setInstances (fun _ => fresh));;
                 update (setMessages (fun prev =>
                   map (refreshTablePayload selected fresh) prev));;
                 mret (Some fresh)
             | None => throw (newError "Failed to fetch instance data")
             end
         end
       else throw (newError "Failed to fetch instance data"))
      (fun error => throw error).

(** The body of the [try] block of [fetchAccountGroups]. *)
Definition fetchAccountGroups_try : M unit :=
  result ← discoverAccounts BASE be;
  if String.eqb (r_status result) "success" then
    match r_data result with
    | None => throw (typeError "Cannot read properties of undefined (reading 'accountGroups')")
    | Some d =>
        let groups := default [] (b_accountGroups d) in
        update (setAccountGroups groups);;
        update (setMessages (fun prev => prev ++
          [mkMessage Bot "Here are your AWS accounts with CloudWatch agent status:"
             AccountGroups (GroupsData groups)]));;
        update (setConversationState AccountSelection)
    end
  else throw (errorFrom (r_message result)).

Definition fetchAccountGroups : M unit :=
  try_catch fetchAccountGroups_try
    (fun error =>
       update (setMessages (fun prev => prev ++ [textMessage Bot accountsApology]))).

Definition countWhere (p : obj -> bool) (l : list obj) : Z :=
  Z.of_nat (length (filter (fun i => p i = true) l)).

Definition isRunning (i : obj) : bool := strict_eq (get i "State") (Str "running").

(** The body of the [try] block of [handleAccountSelect]. *)
Definition handleAccountSelect_try (accountId : value) : M unit :=
  result ← discoverInstances BASE be accountId;
  if String.eqb (r_status result) "success" then
    match r_data result with
    | None => throw (typeError "Cannot read properties of undefined (reading 'instances')")
    | Some d =>
        let instancesWithAlarms := default [] (b_instances d) in
        update (setInstances (fun _ => instancesWithAlarms));;
        let unconfiguredCount :=
          countWhere (fun i => truthy (get i "ActionNeeded") && isRunning i) instancesWithAlarms in
        let configuredCount :=
          countWhere (fun i => truthy (get i "CloudWatchConfigured") && isRunning i) instancesWithAlarms in
        let alarmsConfiguredCount :=
          countWhere (fun i => truthy (get i "AlarmsConfigured") && isRunning i) instancesWithAlarms in
        match b_instances d with
        | None => throw (typeError "Cannot read properties of undefined (reading 'length')")
        | Some found =>
            let message :=
              instancesFoundText (pretty (Z.of_nat (length found)))
                (pretty unconfiguredCount) (pretty configuredCount)
                (pretty alarmsConfiguredCount) in
            update (setMessages (fun prev => prev ++
              [mkMessage Bot message InstancesTable
                 (TableData instancesWithAlarms accountId)]));;
            update (setConversationState InstanceManagement)
        end
    end
  else throw (errorFrom (r_message result)).

(** What [handleAccountSelect] does before it enters the [try] block. *)
Definition handleAccountSelect_begin (accountId : value) : M unit :=
  update (setSelectedAccount accountId);;
  update (setMessages (fun prev => prev ++
    [textMessage User ("Selected account: " +:+ to_string accountId)]));;
  update (setMessages (fun prev => prev ++
    [textMessage Bot ("Scanning account " +:+ to_string accountId +:+
       " for EC2 instances and checking CloudWatch agent status...")]));;
  update (setLoading true).

Definition handleAccountSelect (accountId : value) : M unit :=
  handleAccountSelect_begin accountId;;
  finally
    (try_catch (handleAccountSelect_try accountId)
       (fun error =>
          update (setMessages (fun prev => prev ++ [textMessage Bot instancesApology]))))
    (setLoading false).

Definition intentReply (i : Intent) : string :=
  match i with
  | VolumeConversion => volumeConversionReply
  | InstanceTypeChange => instanceTypeChangeReply
  | CloudWatchConfiguration => cloudWatchReply
  | AlarmConfiguration => alarmReply
  | GenericChat => ""
  end.

(** The [else] branch of [handleSend]: regular chat. *)
Definition regularChat (value : string) : M unit :=
  sid ← read sessionId;
  result ← sendMessage BASE be sid value;
  if String.eqb (r_status result) "success" then
    let botReply :=
      or_else (match r_data result with Some d => b_message d | None => Undefined end)
              (Str "Sorry, I didn't understand that.") in
    let delegate : M string :=
      setTimeout FetchAccountGroups 1000;; mret (to_string (r_message result)) in
    botReply ←
      (if strict_eq (r_intent result) (Str "cloudwatch_configuration") then delegate
       else if strict_eq (r_intent result) (Str "alarm_configuration") then delegate
       else if strict_eq (r_intent result) (Str "instance_type_change") then delegate
       else if strict_eq (r_intent result) (Str "volume_conversion") then delegate
       else mret (to_string botReply +:+ suggestions));
    update (setMessages (fun prev => prev ++ [textMessage Bot botReply]))
  else throw (errorFrom (r_message result)).

Definition handleSend : M unit :=
  raw ← read input;
  let value := trim raw in
  if String.eqb value "" then mret tt
  else
    update (setMessages (fun prev => prev ++ [textMessage User value]));;
    update (setInput "");;
    update (setLoading true);;
    finally
      (try_catch
         (match handleSend_branch value with
          | GenericChat => regularChat value
          | intent =>
              update (setMessages (fun prev => prev ++
                [textMessage Bot (intentReply intent)]));;
              fetchAccountGroups
          end)
         (fun error =>
            update (setMessages (fun prev => prev ++ [textMessage Bot sendErrorText]))))
      (setLoading false).

End Handlers.
End ChatBot.

(* ===================================================================== *)
(** ** components/InstanceDetailsTable.js                                 *)
(* ===================================================================== *)

Module InstanceDetailsTable.
Import Js Rt Api.

(** The props of the component; a callback prop may be left out. *)
Record Props := mkProps {
  p_accountId : value;
  p_setInstances : option ((list obj -> list obj) -> M unit);
  p_onAddMessage : option (string -> string -> M unit);
  p_onRefresh : option (M (option (list obj)))
}.

(** *** Status and ordering *)

Inductive Status := not_configured | agent_configured | alarm_configured.

#[global] Instance Status_eq_dec : EqDecision Status.
Proof. solve_decision. Defined.

Record StatusInfo := mkStatusInfo {
  st_status : Status;
  st_text : value;
  st_className : string;
  st_actionNeeded : bool
}.

Definition getInstanceStatus (instance : obj) : StatusInfo :=
  let hasAgent := get instance "CloudWatchConfigured" in
  let hasAlarms := get instance "AlarmsConfigured" in
  if truthy hasAgent && truthy hasAlarms then
    mkStatusInfo alarm_configured (Str "🎯 Alarm Configured") "alarm-configured" false
  else if truthy hasAgent then
    mkStatusInfo agent_configured
      (or_else (get instance "CloudWatchDisplay")
               (Str "✅ Configured (CWAgent - diskio_io_time)"))
      "configured" false
  else
    mkStatusInfo not_configured
      (or_else (get instance "CloudWatchDisplay")
               (Str "❌ Not Configured (no metrics)"))
      "not-configured" true.

Definition priority (s : Status) : Z :=
  match s with
  | not_configured => 0
  | agent_configured => 1
  | alarm_configured => 2
  end.

(** The comparator handed to [sort]. *)
Definition comparator (a b : obj) : Z :=
  let statusA := getInstanceStatus a in
  let statusB := getInstanceStatus b in
  if negb (priority (st_status statusA) =? priority (st_status statusB)) then
    priority (st_status statusA) - priority (st_status statusB)
  else if negb (strict_eq (get a "State") (get b "State")) then
    (if strict_eq (get a "State") (Str "running") then -1 else 1)
  else 0.

(** [[...instances].sort(comparator)], for the [sort] of the engine the
    page runs on. *)
Definition sortedInstances (sort : (obj -> obj -> Z) -> list obj -> list obj)
    (instances : list obj) : list obj :=
  sort comparator instances.

(** *** Message texts *)

Definition refreshRequestText : string := "🔄 Refresh instance status".

Definition refreshMessage (summary : obj) (now : string) : string :=
  "✅ **Instance data refreshed successfully!**

" +:+ "📊 **Updated Summary:**
" +:+ "• **Total Instances:** " +:+ to_string (get summary "totalInstances") +:+ "
" +:+ "• **Running:** " +:+ to_string (get summary "runningInstances") +:+ "
" +:+ "• **CW Configured:** " +:+ to_string (get summary "configuredInstances") +:+ "
" +:+ "• **Alarms Configured:** " +:+
      to_string (or_else (get summary "alarmsConfiguredInstances") (Num 0)) +:+ "
" +:+ "• **Needs Configuration:** " +:+ to_string (get summary "unconfiguredInstances") +:+ "

" +:+ "🕒 **Refreshed at:** " +:+ now.

Definition refreshFailedText (error : Error) : string :=
  "❌ **Failed to refresh instance data**

**Error:** " +:+ message error.

(** [instance.InstanceName || instance.InstanceId] *)
Definition displayName (instance : obj) : string :=
  to_string (or_else (get instance "InstanceName") (get instance "InstanceId")).

Definition partialWarningText (successCount totalCount : value) (instance : obj) : string :=
  "⚠️ **Partially configured " +:+ to_string successCount +:+ "/" +:+ to_string totalCount
  +:+ " alarms for " +:+ displayName instance +:+ "**

Some alarms may need attention. Please check CloudWatch console for details.".

Definition alarmErrorText (instance : obj) (error : Error) : string :=
  "❌ **Failed to configure alarms for " +:+ displayName instance +:+ "**

**Error:** " +:+ message error +:+ "

🔧 **Troubleshooting:**
• Verify instance has CloudWatch agent installed
• Check IAM permissions for CloudWatch alarm creation
• Ensure instance is running and accessible".

Definition alarmLine (alarm : string) : string :=
  if includes alarm "CPU-Utilization" then "🖥️ " +:+ alarm +:+ "
"
  else if includes alarm "Memory-Utilization" then "💾 " +:+ alarm +:+ "
"
  else if includes alarm "Disk-Utilization" then "💿 " +:+ alarm +:+ "
"
  else if includes alarm "Overall-Utilization" then "📊 " +:+ alarm +:+ "
"
  else if includes alarm "StatusCheck" then "⚠️ " +:+ alarm +:+ "
"
  else "📊 " +:+ alarm +:+ "
".

Definition formatAlarmSuccessMessage (instanceId instanceName : value)
    (platform : string) (alarmCount : value) (createdAlarms : list string) : string :=
  let displayName := to_string (or_else instanceName instanceId) in
  let id := to_string instanceId in
  let windows := String.eqb platform "Windows" in
  "✅ **Successfully configured " +:+ to_string alarmCount +:+
    " CloudWatch alarms for " +:+ displayName +:+ "!**

**Alarms created:**
" +:+
  (match createdAlarms with
   | [] =>
       "🖥️ " +:+ id +:+ "-CPU-Utilization
" +:+ "💾 " +:+ id +:+ "-Memory-Utilization
" +:+ (if windows then "📊" else "💿") +:+ " " +:+ id +:+ "-" +:+
         (if windows then "Overall" else "Disk") +:+ "-Utilization
" +:+ "⚠️ " +:+ id +:+ "-StatusCheck-System
"
   | _ => String.concat "" (map alarmLine createdAlarms)
   end) +:+ "
**Platform:** " +:+ platform +:+ "
**Evaluation:** 1 out of 1 datapoints within 5 minutes" +:+ "

🎯 **Next Steps:**" +:+ "
• Check CloudWatch Console → Alarms to view alarm status" +:+ "
• Monitor instance " +:+ id +:+ " for threshold breaches" +:+ "
• Alarms will trigger when metrics exceed configured thresholds".

(** *** Handlers *)

(** The updater passed to [setInstances] once the alarms of [instance] are
    configured. *)
Definition markAlarmsConfigured (instance : obj) (prevInstances : list obj) : list obj :=
  map (fun inst =>
         if strict_eq (get inst "InstanceId") (get instance "InstanceId")
         then spread_with inst "AlarmsConfigured" (Bool true)
         else inst)
      prevInstances.

(** The object [handleConfirmAlarmConfig] passes to [configureAlarms]. *)
Definition alarmPayload (instance : obj) (accountId alarmConfig : value) : obj :=
  {[ "instanceId" := get instance "InstanceId";
     "accountId" := accountId;
     "region" := get instance "Region";
     "platform" := get instance "Platform";
     "alarmConfig" := alarmConfig ]}.

(** [instance.Platform?.includes('windows') ? 'Windows' : 'Linux'] *)
Definition platformName (platform : value) : M string :=
  match platform with
  | Undefined | Null => mret "Linux"
  | Str p => mret (if includes p "windows" then "Windows" else "Linux")
  | Arr l => mret (if existsb (String.eqb "windows") l then "Windows" else "Linux")
  | _ => throw (typeError "instance.Platform?.includes is not a function")
  end.

Section Handlers.
Variable BASE : string.
Variable be : Backend.
Variable props : Props.

(** [if (onAddMessage) onAddMessage(text, sender)] *)
Definition callAddMessage (t sender : string) : M unit :=
  match p_onAddMessage props with
  | Some onAddMessage => onAddMessage t sender
  | None => mret tt
  end.

(** [if (onAddMessage) setTimeout(() => onAddMessage(text, sender), 500)] *)
Definition laterAddMessage (t sender : string) : M unit :=
  match p_onAddMessage props with
  | Some _ => setTimeout (AddMessage t sender) 500
  | None => mret tt
  end.

(** The refresh button's handler.  [now] is the reading of
    [new Date().toLocaleTimeString()]. *)
Definition handleRefreshInstances (now : string) : M unit :=
  let accountId := p_accountId props in
  if negb (truthy accountId) then mret tt
  else
    update (setRefreshing true);;
    finally
      (try_catch
         (callAddMessage refreshRequestText "user";;
          response ← discoverInstances BASE be accountId;
          if String.eqb (r_status response) "success" then
            match r_data response with
            | None => throw (typeError "Cannot read properties of undefined (reading 'instances')")
            | Some d =>
                match b_instances d with
                | Some fresh =>
                    match p_setInstances props with
                    | Some setInstances => setInstances (fun _ => fresh)
                    | None => throw (typeError "setInstances is not a function")
                    end;;
                    match p_onAddMessage props with
                    | Some _ =>
                        match b_summary d with
                        | Some summary =>
                            setTimeout (AddMessage (refreshMessage summary now) "bot") 500
                        | None =>
                            throw (typeError "Cannot read properties of undefined (reading 'totalInstances')")
                        end
                    | None => mret tt
                    end
                | None => throw (newError "Failed to fetch instance data")
                end
            end
          else throw (newError "Failed to fetch instance data"))
         (fun error => laterAddMessage (refreshFailedText error) "bot"))
      (setRefreshing false).

(** The body of the [try] block of [handleConfirmAlarmConfig]; [modal] is
    [alarmModal.instance]. *)
Definition handleConfirmAlarmConfig_try (modal : option obj) (alarmConfig : value)
    : M unit :=
  match modal with
  | None => throw (typeError "Cannot read properties of null (reading 'InstanceId')")
  | Some instance =>
      callAddMessage ("Configure alarms for " +:+ to_string (get instance "InstanceId")) "user";;
      response ← configureAlarms BASE be
        (alarmPayload instance (p_accountId props) alarmConfig);
      if success response then
        match p_setInstances props with
        | Some setInstances => setInstances (markAlarmsConfigured instance)
        | None => mret tt
        end;;
        match p_onAddMessage props with
        | Some _ =>
            let details := alarmDetails response in
            let alarmCount :=
              or_else (or_else (from_option successfulAlarms Undefined details)
                               (from_option totalAlarms Undefined details))
                      (Num 4) in
            let created := default [] (details ≫= createdAlarms) in
            platform ← platformName (get instance "Platform");
            setTimeout
              (AddMessage
                 (formatAlarmSuccessMessage (get instance "InstanceId")
                    (get instance "InstanceName") platform alarmCount created)
                 "bot") 500
        | None => mret tt
        end;;
        setTimeout RefreshInstances 2000
      else if partialSuccess response then
        match alarmDetails response with
        | None => throw (typeError "Cannot read properties of undefined (reading 'successfulAlarms')")
        | Some d =>
            laterAddMessage
              (partialWarningText (successfulAlarms d) (totalAlarms d) instance) "bot"
        end
      else throw (errorFrom Undefined)   (* new Error(response.error) *)
  end.

Definition handleConfirmAlarmConfig (alarmConfig : value) : M unit :=
  modal ← read alarmModal;
  update (setAlarmModal false None);;
  update (setAlarmLoading true);;
  finally
    (try_catch (handleConfirmAlarmConfig_try modal alarmConfig)
       (fun error =>
          match p_onAddMessage props with
          | Some _ =>
              match modal with
              | Some instance =>
                  setTimeout (AddMessage (alarmErrorText instance error) "bot") 500
              | None => throw (typeError "Cannot read properties of null (reading 'InstanceName')")
              end
          | None => mret tt
          end))
    (setAlarmLoading false).

(** What a pending timer does when it fires. *)
Definition fire (now : string) (t : Task) : M unit :=
  match t with
  | AddMessage t sender => callAddMessage t sender
  | RefreshInstances => handleRefreshInstances now
  | FetchAccountGroups => ChatBot.fetchAccountGroups BASE be
  end.

End Handlers.

(** The props ChatBot renders the table with, for the instances-table
    message of [accountId]. *)
Definition rendered (BASE : string) (be : Backend) (accountId : value) : Props :=
  mkProps accountId
    (Some (fun f => update (setInstances f)))
    (Some ChatBot.addMessage)
    (Some (ChatBot.handleRefreshInstances BASE be)).

End InstanceDetailsTable.

(* ===================================================================== *)
(** ** components/VolumeConversionModal.js                                *)
(* ===================================================================== *)

Module VolumeConversionModal.
Import Js.

Record Volume := mkVolume {
  VolumeId : string;
  VolumeType : string;
  Size : Z
}.

Inductive Step :=
  | discovery | selection | configuration | confirmation | no_volumes | error.

#[global] Instance Step_eq_dec : EqDecision Step.
Proof. solve_decision. Defined.

(** The [useState] cells of the modal that the configuration step touches. *)
Record State := mkState {
  volumes : list Volume;
  selectedVolumes : list string;
  targetVolumeType : string;
  customIops : string;
  customThroughput : string;
  errorText : string;
  step : Step
}.

Record VolumeTypeOption := mkOption {
  opt_value : string;
  opt_label : string;
  opt_description : string;
  opt_benefits : string;
  supportsCustom : bool;
  recommended : bool
}.

Definition volumeTypeOptions : list VolumeTypeOption :=
  [ mkOption "gp2" "GP2 (General Purpose SSD - Previous)"
      "Previous generation SSD (not recommended for new deployments)"
      "Legacy compatibility" false false ].

(** What [calculateOptimalSettings] returns when it is not [null]:
    [{ iops, throughput }] or [{ iops }]. *)
Record Settings := mkSettings {
  iops : Z;
  throughput : option Z
}.

(** The [gp3] branch of [calculateOptimalSettings]. *)
Definition gp3Settings (volumeSize : Z) : Settings :=
  let optimalIops := Z.max 3000 (Z.min (volumeSize * 3) 16000) in
  let optimalThroughput := Z.max 125 (Z.min (optimalIops / 4) 1000) in
  mkSettings optimalIops (Some optimalThroughput).

Definition calculateOptimalSettings (volumeSize : Z) (targetType : string)
    : option Settings :=
  match List.find (fun opt => String.eqb (opt_value opt) targetType) volumeTypeOptions with
  | None => None
  | Some targetOption =>
      if negb (supportsCustom targetOption) then None
      else if String.eqb targetType "gp3" then Some (gp3Settings volumeSize)
      else if String.eqb targetType "io1" || String.eqb targetType "io2" then
        let multiplier := if String.eqb targetType "io2" then 500 else 100 in
        let optimalIops := Z.max 100 (Z.min (volumeSize * multiplier) 64000) in
        Some (mkSettings optimalIops None)
      else None
  end.

(** [Math.round(sum / n)] for an integer [sum] and a positive [n]: the
    nearest integer, halves upwards. *)
Definition roundedAverage (sum : Z) (n : Z) : Z := (2 * sum + n) / (2 * n).

(** The state the modal is reset to when it opens. *)
Definition opened : State := mkState [] [] "gp3" "" "" "" discovery.

Definition proceedToConfiguration (s : State) : State :=
  if (length (selectedVolumes s) =? 0)%nat then
    mkState (volumes s) (selectedVolumes s) (targetVolumeType s) (customIops s)
      (customThroughput s) "Please select at least one volume to convert" (step s)
  else
    let selectedVolumeObjects :=
      List.filter (fun v => existsb (String.eqb (VolumeId v)) (selectedVolumes s))
        (volumes s) in
    let optimal :=
      if (0 <? length selectedVolumeObjects)%nat then
        let avgSize :=
          roundedAverage (fold_left (fun sum v => sum + Size v) selectedVolumeObjects 0)
            (Z.of_nat (length selectedVolumeObjects)) in
        calculateOptimalSettings avgSize (targetVolumeType s)
      else None in
    let iops' :=
      match optimal with
      | Some o => if negb (iops o =? 0) then pretty (iops o) else customIops s
      | None => customIops s
      end in
    let throughput' :=
      match optimal ≫= throughput with
      | Some t => if negb (t =? 0) then pretty t else customThroughput s
      | None => customThroughput s
      end in
    mkState (volumes s) (selectedVolumes s) (targetVolumeType s) iops' throughput'
      "" configuration.

End VolumeConversionModal.

(* ===================================================================== *)
(** ** Notions the properties are stated with                             *)
(* ===================================================================== *)

Module Spec.
Import Js Rt.

(** [s] is empty or holds white space only. *)
Definition blank (s : string) : Prop :=
  Forall (fun c => is_white_space c = true) (list_ascii_of_string s).

(** A text that does not begin with white space, and one that does not end
    with it. *)
Definition starts_clean (k : string) : bool :=
  match k with
  | "" => false
  | String c _ => negb (is_white_space c)
  end.

Fixpoint ends_clean (k : string) : bool :=
  match k with
  | "" => true
  | String c "" => negb (is_white_space c)
  | String _ k' => ends_clean k'
  end.

(** [k] occurs in [s] when letter case is ignored. *)
Definition occurs_ignoring_case (k s : string) : Prop :=
  exists pre mid post,
    s = pre +:+ mid +:+ post /\ toLowerCase mid = toLowerCase k.

(** Some keyword of the list occurs in the text. *)
Definition matches (keywords : list string) (s : string) : Prop :=
  exists k, In k keywords /\ occurs_ignoring_case k s.

(** The keyword sets in their priority order. *)
Definition priorityOrder : list (ChatBot.Intent * list string) :=
  [ (ChatBot.VolumeConversion, ChatBot.volumeConversionKeywords);
    (ChatBot.InstanceTypeChange, ChatBot.instanceTypeChangeKeywords);
    (ChatBot.CloudWatchConfiguration, ChatBot.cloudWatchKeywords);
    (ChatBot.AlarmConfiguration, ChatBot.alarmKeywords) ].

(** [first_match table s i]: [i] is the first intent of [table] one of
    whose keywords occurs in [s], generic chat when there is none. *)
Inductive first_match (s : string)
    : list (ChatBot.Intent * list string) -> ChatBot.Intent -> Prop :=
  | first_match_none :
      first_match s [] ChatBot.GenericChat
  | first_match_here i keywords rest :
      matches keywords s ->
      first_match s ((i, keywords) :: rest) i
  | first_match_later i keywords rest j :
      ~ matches keywords s ->
      first_match s rest j ->
      first_match s ((i, keywords) :: rest) j.

(** The branch [handleSend] takes on the text of the input box: [None]
    when it returns at once. *)
Definition route (raw : string) : option ChatBot.Intent :=
  let value := trim raw in
  if String.eqb value "" then None else Some (ChatBot.handleSend_branch value).

(** The outcome of a call whose result does not depend on the world it
    runs in. *)
Definition result_of {A} (m : M A) : completion A :=
  outcome m (ChatBot.initial "").

(** The instance list a discovery for [accountId] brings back, [None] when
    the refresh handlers take it for failed. *)
Definition fetched (BASE : string) (be : Backend) (accountId : value)
    : option (list obj) :=
  if truthy accountId then
    match result_of (Api.discoverInstances BASE be accountId) with
    | Normal r =>
        if String.eqb (Api.r_status r) "success"
        then Api.r_data r ≫= b_instances else None
    | Throw _ => None
    end
  else None.

(** The payloads of the instances-table messages of [accountId]. *)
Definition tablePayloads (accountId : value) (msgs : list Message)
    : list (list obj) :=
  omap (fun m =>
          match type m, data m with
          | InstancesTable, TableData l a =>
              if strict_eq a accountId then Some l else None
          | _, _ => None
          end) msgs.

(** How many times the refresh button's own message is in a transcript. *)
Definition refreshRequests (msgs : list Message) : nat :=
  length (filter (fun m => text m = InstanceDetailsTable.refreshRequestText) msgs).

(** A field the validation of the API client takes for missing: absent, or
    holding a falsy value. *)
Definition missing (data : obj) (field : string) : Prop :=
  truthy (get data field) = false.

(** *** The order of the instance table *)

Definition tier (i : obj) : Z :=
  InstanceDetailsTable.priority
    (InstanceDetailsTable.st_status (InstanceDetailsTable.getInstanceStatus i)).

Definition running (i : obj) : bool := strict_eq (get i "State") (Str "running").

(** [a] has to come before [b]: a lower tier, or the same tier with [a]
    running and [b] not. *)
Definition precedes (a b : obj) : Prop :=
  tier a < tier b \/ (tier a = tier b /\ running a = true /\ running b = false).

(** Neither has to come before the other. *)
Definition tied (a b : obj) : Prop :=
  tier a = tier b /\ running a = running b.

#[global] Instance tied_dec a b : Decision (tied a b).
Proof. unfold tied. apply _. Defined.

(** [sorted] is [l] in table order: a rearrangement of [l] in which no
    instance stands after one it has to come before, and in which tied
    instances keep the order they have in [l]. *)
Definition table_sorted (l sorted : list obj) : Prop :=
  Permutation l sorted
  /\ ForallOrdPairs (fun a b => ~ precedes b a) sorted
  /\ forall a, filter (tied a) sorted = filter (tied a) l.

(** A list in ascending order of a numeric key. *)
Definition ascending {A} (key : A -> Z) (l : list A) : Prop :=
  ForallOrdPairs (fun a b => key a <= key b) l.

(** The two questions the sorting engines put to [comparefn] have one
    answer on [x] and [y]. *)
Definition agree {A} (comparefn : A -> A -> Z) (x y : A) : Prop :=
  (0 <? comparefn x y) = (comparefn y x <? 0).

(** One number for the place of an instance in the table order. *)
Definition sortKey (i : obj) : Z := 2 * tier i + (if running i then 0 else 1).

(** The comparator answers consistently on [a] and [b]: it does not call
    each of the two greater than the other. *)
Definition consistent_on (a b : obj) : Prop :=
  tier a <> tier b \/ get a "State" = get b "State"
  \/ running a = true \/ running b = true.

(** [clamp x lo hi] *)
Definition clamp (x lo hi : Z) : Z := Z.max lo (Z.min x hi).

(** *** Alarm configuration *)

(** An answer of the alarm endpoint that reports a partial success: status
    207 and a body whose [partialSuccess] is truthy. *)
Definition partial_success_answer (answer : FetchOutcome AlarmsBody) : Prop :=
  exists st err body,
    answer = Responded (mkResponse 207 st (Some body) err)
    /\ truthy (b_partialSuccess body) = true.

(** The [AlarmsConfigured] field of each instance of a list. *)
Definition alarmFlags (l : list obj) : list value :=
  map (fun i => get i "AlarmsConfigured") l.

End Spec.

(* ===================================================================== *)
(** ** Concrete accounts, instances and backends                          *)
(* ===================================================================== *)

Module Scenarios.
Import Js Rt.

Definition account : value := Str "111122223333".

Definition instance (id state : string) (agent alarms : bool) : obj :=
  {[ "InstanceId" := Str id;
     "State" := Str state;
     "Region" := Str "us-east-1";
     "CloudWatchConfigured" := Bool agent;
     "AlarmsConfigured" := Bool alarms ]}.

Definition summaryOf (total : Z) : obj :=
  {[ "totalInstances" := Num total;
     "runningInstances" := Num total;
     "configuredInstances" := Num 0;
     "unconfiguredInstances" := Num total ]}.

Definition unreachable {B} : FetchOutcome B :=
  Rejected (mkError "TypeError" "Failed to fetch").


(** Instance discovery answers 200 with [l]; volume conversion answers
    200. *)
Definition serving (l : list obj) : Backend :=
  mkBackend unreachable
    (fun _ => Responded (mkResponse 200 "OK"
                (Some (mkInstancesBody (Some l) (Some (summaryOf (Z.of_nat (length l))))))
                Undefined))
    (fun _ => unreachable)
    (fun _ => unreachable)
    (fun _ => Responded (mkResponse 200 "OK" (Some tt) Undefined)).

(** Alarm configuration answers 207: two alarms of four were created. *)
Definition twoOfFour : Backend :=
  mkBackend unreachable (fun _ => unreachable) (fun _ => unreachable)
    (fun _ => Responded (mkResponse 207 "Multi-Status"
                (Some (mkAlarmsBody (Bool false) (Bool true)
                         (Str "2 of 4 alarms created")
                         (Some (mkAlarmDetails (Num 2) (Num 4) None))))
                Undefined))
    (fun _ => unreachable).

(** Alarm configuration answers 207 for two alarms of four, with a body
    that sets [success] beside [partialSuccess]. *)
Definition twoOfFourAsSuccess : Backend :=
  mkBackend unreachable (fun _ => unreachable) (fun _ => unreachable)
    (fun _ => Responded (mkResponse 207 "Multi-Status"
                (Some (mkAlarmsBody (Bool true) (Bool true)
                         (Str "2 of 4 alarms created")
                         (Some (mkAlarmDetails (Num 2) (Num 4) None))))
                Undefined))
    (fun _ => unreachable).

(** Alarm configuration answers 207 with [partialSuccess] and without
    [alarmDetails]. *)
Definition partialWithoutDetails : Backend :=
  mkBackend unreachable (fun _ => unreachable) (fun _ => unreachable)
    (fun _ => Responded (mkResponse 207 "Multi-Status"
                (Some (mkAlarmsBody (Bool false) (Bool true)
                         (Str "Some alarms were not created") None))
                Undefined))
    (fun _ => unreachable).

(** Alarm configuration answers 200: all four alarms were created. *)
Definition allFour : Backend :=
  mkBackend unreachable (fun _ => unreachable) (fun _ => unreachable)
    (fun _ => Responded (mkResponse 200 "OK"
                (Some (mkAlarmsBody (Bool true) Undefined
                         (Str "4 alarms created")
                         (Some (mkAlarmDetails (Num 4) (Num 4) None))))
                Undefined))
    (fun _ => unreachable).

(** The widget after the account was selected against [serving l]. *)
Definition managing (l : list obj) : World :=
  exec (ChatBot.handleAccountSelect "" (serving l) account)
    (ChatBot.initial "session-1").

(** The same, with the alarm modal open on [i]. *)
Definition configuring (l : list obj) (i : obj) : World :=
  setAlarmModal true (Some i) (managing l).

(** The volume modal on the selection step: one 100 GB gp2 volume, selected,
    to be converted to gp3. *)
Definition oneVolumeSelected : VolumeConversionModal.State :=
  VolumeConversionModal.mkState
    [VolumeConversionModal.mkVolume "vol-1" "gp2" 100] ["vol-1"] "gp3" "" "" ""
    VolumeConversionModal.selection.

Definition web1 : obj := instance "i-0aaa" "running" true false.
Definition web2 : obj := instance "i-0bbb" "running" false false.
Definition old1 : obj := instance "i-0ccc" "stopped" false false.
Definition old2 : obj := instance "i-0ddd" "terminated" false false.

End Scenarios.

(* ===================================================================== *)
(** ** Facts about the string built-ins                                   *)
(* ===================================================================== *)

Module JsFacts.
Import Js.

Lemma app_cons c a b : String c a +:+ b = String c (a +:+ b).
Proof. reflexivity. Qed.

Lemma app_empty_l b : "" +:+ b = b.
Proof. reflexivity. Qed.

Lemma app_is_empty a b : a +:+ b = "" -> a = "" /\ b = "".
Proof. destruct a; [intros H; now split | discriminate]. Qed.

Lemma string_app_assoc a b c : (a +:+ b) +:+ c = a +:+ b +:+ c.
Proof. induction a as [|x a IH]; [reflexivity|]. rewrite !app_cons. now rewrite IH. Qed.

Lemma startsWith_spec k : forall s,
  startsWith s k = true <-> exists post, s = k +:+ post.
Proof.
  induction k as [|a k IH]; intros s.
  - destruct s; simpl; split; eauto.
  - destruct s as [|b s]; simpl.
    + split; [discriminate | intros [post H]; discriminate].
    + rewrite andb_true_iff, Ascii.eqb_eq, IH. split.
      * intros [-> [post ->]]. now exists post.
      * intros [post H]. rewrite app_cons in H. injection H as -> ->. eauto.
Qed.

Lemma includes_spec k : forall s,
  includes s k = true <-> exists pre post, s = pre +:+ k +:+ post.
Proof.
  induction s as [|c s IH].
  - cbn [includes]. rewrite orb_false_r, startsWith_spec. split.
    + intros [post H]. now exists "", post.
    + intros (pre & post & H). symmetry in H.
      apply app_is_empty in H as [-> H]. apply app_is_empty in H as [-> ->].
      now exists "".
  - cbn [includes]. rewrite orb_true_iff, startsWith_spec, IH. split.
    + intros [[post H] | (pre & post & H)].
      * now exists "", post.
      * exists (String c pre), post. now rewrite app_cons, H.
    + intros ([|x pre] & post & H).
      * left. now exists post.
      * right. rewrite app_cons in H. injection H as -> ->. eauto.
Qed.

Lemma toLowerCase_app a b :
  toLowerCase (a +:+ b) = toLowerCase a +:+ toLowerCase b.
Proof. induction a as [|x a IH]; [reflexivity|]. rewrite app_cons. simpl. now rewrite IH. Qed.

Lemma toLowerCase_app_inv a : forall s b,
  toLowerCase s = a +:+ b ->
  exists s1 s2, s = s1 +:+ s2 /\ toLowerCase s1 = a /\ toLowerCase s2 = b.
Proof.
  induction a as [|x a IH]; intros s b H.
  - now exists "", s.
  - destruct s as [|c s]; [discriminate|].
    rewrite app_cons in H. simpl in H. injection H as Hc H.
    destruct (IH _ _ H) as (s1 & s2 & -> & H1 & H2).
    exists (String c s1), s2. simpl. now rewrite Hc, H1.
Qed.

(** Containment in the lower-cased text is occurrence up to case, for a
    keyword written in lower case. *)
Lemma includes_toLowerCase k s :
  toLowerCase k = k ->
  includes (toLowerCase s) k = true <-> Spec.occurs_ignoring_case k s.
Proof.
  intros Hk. rewrite includes_spec. unfold Spec.occurs_ignoring_case. split.
  - intros (pre & post & H).
    apply toLowerCase_app_inv in H as (s1 & s23 & -> & H1 & H23).
    apply toLowerCase_app_inv in H23 as (s2 & s3 & -> & H2 & H3).
    exists s1, s2, s3. split; [reflexivity | congruence].
  - intros (pre & mid & post & -> & H).
    exists (toLowerCase pre), (toLowerCase post).
    rewrite !toLowerCase_app. congruence.
Qed.

Lemma lower_char_white_space c :
  is_white_space (lower_char c) = is_white_space c.
Proof. destruct c as [[] [] [] [] [] [] [] []]; reflexivity. Qed.

Lemma toLowerCase_is_empty s : String.eqb (toLowerCase s) "" = String.eqb s "".
Proof. now destruct s. Qed.

Lemma toLowerCase_trimStart s : toLowerCase (trimStart s) = trimStart (toLowerCase s).
Proof.
  induction s as [|c s IH]; [reflexivity|].
  cbn [trimStart toLowerCase]. rewrite lower_char_white_space.
  now destruct (is_white_space c).
Qed.

Lemma toLowerCase_trimEnd s : toLowerCase (trimEnd s) = trimEnd (toLowerCase s).
Proof.
  induction s as [|c s IH]; [reflexivity|].
  cbn [trimEnd toLowerCase]. rewrite lower_char_white_space, <- IH, toLowerCase_is_empty.
  now destruct (is_white_space c && String.eqb (trimEnd s) "").
Qed.

Lemma toLowerCase_trim s : toLowerCase (trim s) = trim (toLowerCase s).
Proof. unfold trim. now rewrite toLowerCase_trimEnd, toLowerCase_trimStart. Qed.

Lemma ends_clean_tail c k : Spec.ends_clean (String c k) = true -> Spec.ends_clean k = true.
Proof. now destruct k. Qed.

Lemma includes_trimStart k s :
  Spec.starts_clean k = true -> includes (trimStart s) k = includes s k.
Proof.
  intros Hk. induction s as [|c s IH]; [reflexivity|].
  cbn [trimStart]. destruct (is_white_space c) eqn:Hc; [|reflexivity].
  rewrite IH. cbn [includes].
  destruct k as [|d k]; [discriminate|]. cbn [startsWith].
  destruct (Ascii.eqb d c) eqn:Hd; [|reflexivity].
  apply Ascii.eqb_eq in Hd as ->. simpl in Hk. now rewrite Hc in Hk.
Qed.

Lemma startsWith_trimEnd s : forall k,
  Spec.ends_clean k = true -> startsWith (trimEnd s) k = startsWith s k.
Proof.
  induction s as [|c s IH]; intros k Hk; [reflexivity|].
  destruct k as [|d k]; [now destruct (trimEnd (String c s))|].
  cbn [trimEnd].
  destruct (is_white_space c && String.eqb (trimEnd s) "") eqn:Hcase.
  - apply andb_true_iff in Hcase as [Hc Hr]. apply String.eqb_eq in Hr.
    cbn [startsWith]. destruct (Ascii.eqb d c) eqn:Hd; [|reflexivity].
    apply Ascii.eqb_eq in Hd as ->.
    destruct k as [|e k]; [simpl in Hk; now rewrite Hc in Hk|].
    rewrite <- IH, Hr by exact Hk. reflexivity.
  - cbn [startsWith]. rewrite IH by (eapply ends_clean_tail; eassumption). reflexivity.
Qed.

Lemma includes_trimEnd k s :
  Spec.ends_clean k = true -> k <> "" -> includes (trimEnd s) k = includes s k.
Proof.
  intros Hk Hne. induction s as [|c s IH]; [reflexivity|].
  cbn [includes]. rewrite <- IH, <- (startsWith_trimEnd (String c s)) by exact Hk.
  cbn [trimEnd].
  destruct (is_white_space c && String.eqb (trimEnd s) "") eqn:Hcase.
  - apply andb_true_iff in Hcase as [_ Hr]. apply String.eqb_eq in Hr. rewrite Hr.
    destruct k; [congruence | reflexivity].
  - reflexivity.
Qed.

Lemma includes_trim k s :
  Spec.starts_clean k = true -> Spec.ends_clean k = true ->
  includes (trim s) k = includes s k.
Proof.
  intros Hs He. unfold trim.
  rewrite includes_trimEnd, includes_trimStart; auto.
  intros ->. discriminate.
Qed.

Lemma trimStart_blank s : trimStart s = "" <-> Spec.blank s.
Proof.
  unfold Spec.blank. induction s as [|c s IH]; simpl.
  - split; [constructor | reflexivity].
  - destruct (is_white_space c) eqn:Hc.
    + rewrite IH. split; [now constructor | now inversion 1].
    + split; [discriminate | inversion 1; congruence].
Qed.

Lemma trimStart_head s c t : trimStart s = String c t -> is_white_space c = false.
Proof.
  induction s as [|d s IH]; [discriminate|]. simpl.
  destruct (is_white_space d) eqn:Hd; [assumption | congruence].
Qed.

Lemma trim_blank s : trim s = "" <-> Spec.blank s.
Proof.
  rewrite <- trimStart_blank. unfold trim. split.
  - destruct (trimStart s) as [|c t] eqn:H; [reflexivity|].
    apply trimStart_head in H. cbn [trimEnd]. now rewrite H.
  - now intros ->.
Qed.

End JsFacts.

(* ===================================================================== *)
(** ** Intent routing (ChatBot.js)                                        *)
(* ===================================================================== *)

Module RoutingFacts.
Import Js Rt Api JsFacts.

Definition lower_case (k : string) : Prop := toLowerCase k = k.
Definition clean (k : string) : Prop :=
  Spec.starts_clean k = true /\ Spec.ends_clean k = true.

Lemma keywords_tidy :
  Forall (fun '(_, keywords) => Forall (fun k => lower_case k /\ clean k) keywords)
    Spec.priorityOrder.
Proof. repeat constructor. Qed.

(** A keyword check is the search for an occurrence up to case. *)
Lemma check_matches keywords s :
  Forall (fun k => lower_case k /\ clean k) keywords ->
  some (fun keyword => includes (toLowerCase s) keyword) keywords = true
  <-> Spec.matches keywords s.
Proof.
  intros Hk. unfold some, Spec.matches. rewrite existsb_exists.
  rewrite Forall_forall in Hk.
  split; intros (k & Hin & H); exists k; split; auto;
    apply includes_toLowerCase; auto; apply Hk; now apply list_elem_of_In.
Qed.

(** Trimming the text changes no keyword check. *)
Lemma check_trim keywords s :
  Forall (fun k => lower_case k /\ clean k) keywords ->
  some (fun keyword => includes (toLowerCase (trim s)) keyword) keywords
  = some (fun keyword => includes (toLowerCase s) keyword) keywords.
Proof.
  intros Hk. unfold some. induction Hk as [|k ks [_ [Hs He]] _ IH]; [reflexivity|].
  cbn [existsb]. now rewrite IH, toLowerCase_trim, includes_trim.
Qed.

Lemma matches_trim keywords s :
  Forall (fun k => lower_case k /\ clean k) keywords ->
  Spec.matches keywords (trim s) <-> Spec.matches keywords s.
Proof.
  intros Hk. now rewrite <- !check_matches, check_trim by exact Hk.
Qed.

Tactic Notation "tidy" integer(n) :=
  let H := fresh in
  pose proof keywords_tidy as H; unfold Spec.priorityOrder in H;
  do n (apply Forall_cons_1 in H as [_ H]);
  apply Forall_cons_1 in H as [H _]; exact H.

(** The [if / else if] chain picks the first intent with a match. *)
Lemma branch_first_match s :
  Spec.first_match s Spec.priorityOrder (ChatBot.handleSend_branch s).
Proof.
  unfold ChatBot.handleSend_branch, Spec.priorityOrder.
  destruct (ChatBot.checkVolumeConversionIntent s) eqn:H1.
  { apply Spec.first_match_here. apply check_matches; [tidy 0 | exact H1]. }
  apply Spec.first_match_later.
  { rewrite <- check_matches by tidy 0.
    unfold ChatBot.checkVolumeConversionIntent in H1. congruence. }
  destruct (ChatBot.checkInstanceTypeChangeIntent s) eqn:H2.
  { apply Spec.first_match_here. apply check_matches; [tidy 1 | exact H2]. }
  apply Spec.first_match_later.
  { rewrite <- check_matches by tidy 1.
    unfold ChatBot.checkInstanceTypeChangeIntent in H2. congruence. }
  destruct (ChatBot.checkCloudWatchIntent s) eqn:H3.
  { apply Spec.first_match_here. apply check_matches; [tidy 2 | exact H3]. }
  apply Spec.first_match_later.
  { rewrite <- check_matches by tidy 2.
    unfold ChatBot.checkCloudWatchIntent in H3. congruence. }
  destruct (ChatBot.checkAlarmIntent s) eqn:H4.
  { apply Spec.first_match_here. apply check_matches; [tidy 3 | exact H4]. }
  apply Spec.first_match_later.
  { rewrite <- check_matches by tidy 3.
    unfold ChatBot.checkAlarmIntent in H4. congruence. }
  constructor.
Qed.

(** There is one first match. *)
Lemma first_match_unique s table i j :
  Spec.first_match s table i -> Spec.first_match s table j -> i = j.
Proof.
  induction 1; inversion 1; subst; auto; contradiction.
Qed.

Lemma first_match_trim s : forall table i,
  Forall (fun '(_, keywords) => Forall (fun k => lower_case k /\ clean k) keywords) table ->
  Spec.first_match (trim s) table i -> Spec.first_match s table i.
Proof.
  intros table i Ht H. induction H as [|i kws rest Hm|i kws rest j Hn _ IH].
  - constructor.
  - apply Forall_cons_1 in Ht as [Hk _]. constructor. now apply matches_trim.
  - apply Forall_cons_1 in Ht as [Hk Ht]. constructor; auto.
    now rewrite <- matches_trim.
Qed.

Lemma blank_route raw : Spec.blank raw <-> Spec.route raw = None.
Proof.
  rewrite <- trim_blank. unfold Spec.route.
  destruct (String.eqb_spec (trim raw) ""); split; congruence.
Qed.

(** C1, as the code has it: on every text that is not blank, [handleSend]
    takes the branch of the first intent, in the order volume conversion,
    instance-type change, CloudWatch configuration, alarm configuration,
    one of whose keywords occurs in the text up to letter case, and the
    generic chat branch when no keyword occurs. *)
Theorem handleSend_routes_to_first_match (raw : string) (i : ChatBot.Intent) :
  ~ Spec.blank raw ->
  Spec.route raw = Some i <-> Spec.first_match raw Spec.priorityOrder i.
Proof.
  intros Hb. rewrite blank_route in Hb.
  assert (Spec.route raw = Some (ChatBot.handleSend_branch (trim raw))) as Hr.
  { unfold Spec.route in *. now destruct (String.eqb (trim raw) ""). }
  pose proof (first_match_trim raw _ _ keywords_tidy (branch_first_match (trim raw))) as Hf.
  rewrite Hr. split.
  - now intros [= <-].
  - intros Hi. f_equal. eapply first_match_unique; eassumption.
Qed.

(** The text "configure cloudwatch alarm" is routed to CloudWatch
    configuration, its first match. *)
Lemma handleSend_routes_configure_cloudwatch_alarm :
  ~ Spec.blank "configure cloudwatch alarm"
  /\ Spec.route "configure cloudwatch alarm" = Some ChatBot.CloudWatchConfiguration
  /\ Spec.first_match "configure cloudwatch alarm" Spec.priorityOrder
       ChatBot.CloudWatchConfiguration.
Proof.
  assert (~ Spec.blank "configure cloudwatch alarm") as Hb.
  { rewrite blank_route. vm_compute. discriminate. }
  split; [exact Hb|]. split; [reflexivity|].
  apply (handleSend_routes_to_first_match _ _ Hb). reflexivity.
Defined.

(** A text of one space is not empty, no keyword occurs in it, and yet
    [handleSend] does not take the generic chat branch: it returns at
    once. *)
Lemma handleSend_drops_whitespace_text :
  ~ (" " <> "" ->
     exists i, Spec.route " " = Some i
               /\ Spec.first_match " " Spec.priorityOrder i).
Proof.
  intros H. destruct H as (i & Hr & _); [discriminate|].
  vm_compute in Hr. discriminate.
Qed.

End RoutingFacts.

(* ===================================================================== *)
(** ** The conversation handlers (ChatBot.js)                             *)
(* ===================================================================== *)

(** Unfolds the monad, then splits on every test the handler makes. *)
Ltac run_handler :=
  unfold Rt.setTimeout in *;
  unfold Rt.outcome, Rt.exec, mbind, Rt.M_bind, mret, Rt.M_ret, Rt.try_catch,
    Rt.finally, Rt.update, Rt.read, Rt.throw in *.
Ltac split_paths :=
  repeat (simpl; case_match; simplify_eq/=); intros; simplify_eq/=; auto.

Module ChatBotFacts.
Import Js Rt Api JsFacts.

(** C9: when the input box is empty or holds white space only,
    [handleSend] returns at once: the world it leaves is the world it found
    (transcript, request log, conversation state and all), and no branch of
    the intent chain is taken. *)
Theorem handleSend_blank_is_noop BASE be (w : World) :
  Spec.blank (input w) ->
  ChatBot.handleSend BASE be w = (w, Normal tt) /\ Spec.route (input w) = None.
Proof.
  intros Hb. split; [|now apply RoutingFacts.blank_route].
  apply trim_blank in Hb.
  unfold ChatBot.handleSend, mbind, M_bind, read. now rewrite Hb.
Qed.

Lemma handleSend_blank_is_noop_witness :
  let w := setInput "  	 " (ChatBot.initial "session-1") in
  Spec.blank (input w)
  /\ ChatBot.handleSend "" (mkBackend (Rejected (newError "down"))
                             (fun _ => Rejected (newError "down"))
                             (fun _ => Rejected (newError "down"))
                             (fun _ => Rejected (newError "down"))
                             (fun _ => Rejected (newError "down"))) w
     = (w, Normal tt).
Proof.
  intros w.
  assert (Spec.blank (input w)) as Hb by (apply trim_blank; reflexivity).
  split; [exact Hb|]. now apply handleSend_blank_is_noop.
Defined.

(** The branch named by [Spec.route] shows in what [handleSend] does: an
    action intent answers with its own reply and asks for the accounts,
    generic chat posts the text to the conversation endpoint. *)
Lemma handleSend_takes_route BASE be (w : World) i :
  Spec.route (input w) = Some i ->
  let w' := exec (ChatBot.handleSend BASE be) w in
  let value := trim (input w) in
  if decide (i = ChatBot.GenericChat) then
    requests w' = requests w ++
      [mkRequest (BASE +:+ "/api/converse") "POST"
         (Some {[ "session_id" := Str (sessionId w); "message" := Str value ]})]
  else
    requests w' = requests w ++ [mkRequest (BASE +:+ "/api/discover-accounts") "GET" None]
    /\ exists rest,
         messages w' = messages w ++
           [textMessage User value; textMessage Bot (ChatBot.intentReply i)] ++ rest.
Proof.
  unfold Spec.route. destruct (String.eqb (trim (input w)) "") eqn:Hv; [discriminate|].
  intros [= <-]. cbv zeta.
  unfold ChatBot.handleSend. run_handler. rewrite Hv.
  destruct (ChatBot.handleSend_branch (trim (input w))) eqn:Hb; cbn [decide].
  all: unfold ChatBot.fetchAccountGroups, ChatBot.fetchAccountGroups_try,
         ChatBot.regularChat, discoverAccounts, sendMessage, apiCall, fetch_json.
  all: run_handler; case_decide; try congruence.
  all: try split.
  all: try (split_paths; fail).
  all: split_paths; rewrite <- ?List.app_assoc; simpl; eauto.
Qed.



End ChatBotFacts.

(* ===================================================================== *)
(** ** The API client (Services/api.js)                                   *)
(* ===================================================================== *)

Module ApiFacts.
Import Js Rt Api.

(** A call touches the world only by logging its request. *)
Lemma configureAlarms_run BASE be data w :
  configureAlarms BASE be data w =
    (if missingRequired data then w
     else logRequest (mkRequest (BASE +:+ "/api/configure-alarms") "POST" (Some data)) w,
     Spec.result_of (configureAlarms BASE be data)).
Proof.
  unfold Spec.result_of, configureAlarms, fetch_json, utilizationKind.
  run_handler. split_paths.
Qed.

Lemma discoverInstances_run BASE be accountId w :
  discoverInstances BASE be accountId w =
    (if truthy accountId
     then logRequest
            (mkRequest (BASE +:+ "/api/discover-instances/" +:+ to_string accountId)
               "GET" None) w
     else w,
     Spec.result_of (discoverInstances BASE be accountId)).
Proof.
  unfold Spec.result_of, discoverInstances, apiCall, fetch_json.
  run_handler. split_paths.
Qed.

(** C8, as the code has it: when [instanceId], [accountId] or [region] is
    missing from the payload, [convertVolumes] throws its validation error
    and leaves the world, and so the request log, as it found it. *)
Theorem convertVolumes_validates_instance_account_region
    BASE be (data : obj) (w : World) :
  Spec.missing data "instanceId" \/ Spec.missing data "accountId"
    \/ Spec.missing data "region" ->
  convertVolumes BASE be data w =
    (w, Throw (newError
      "Failed to convert volumes: Missing required fields: instanceId, accountId, or region")).
Proof.
  unfold Spec.missing. intros H.
  assert (missingRequired data = true) as Hm.
  { unfold missingRequired.
    destruct H as [H | [H | H]]; rewrite H; simpl; rewrite ?orb_true_r; reflexivity. }
  unfold convertVolumes. run_handler. now rewrite Hm.
Qed.

Lemma convertVolumes_validates_witness :
  let data : obj :=
    {[ "accountId" := Scenarios.account; "region" := Str "us-east-1";
       "volumeIds" := Arr ["vol-1"; "vol-2"] ]} in
  let w := ChatBot.initial "session-1" in
  Spec.missing data "instanceId"
  /\ convertVolumes "" (Scenarios.serving []) data w =
       (w, Throw (newError
         "Failed to convert volumes: Missing required fields: instanceId, accountId, or region")).
Proof.
  intros data w.
  assert (Spec.missing data "instanceId") as Hm by reflexivity.
  split; [exact Hm|].
  apply convertVolumes_validates_instance_account_region. now left.
Defined.

(** A payload with [instanceId], [accountId] and [region] but without
    [volumeIds] is not rejected: the request goes out. *)
Lemma convertVolumes_sends_without_volumeIds :
  let data : obj :=
    {[ "instanceId" := Str "i-0aaa"; "accountId" := Scenarios.account;
       "region" := Str "us-east-1" ]} in
  let w := ChatBot.initial "session-1" in
  ~ (Spec.missing data "accountId" \/ Spec.missing data "region"
       \/ Spec.missing data "volumeIds" ->
     exists e, convertVolumes "" (Scenarios.serving []) data w = (w, Throw e)).
Proof.
  intros data w H. destruct H as [e H].
  - right. right. reflexivity.
  - vm_compute in H. discriminate.
Qed.

(** What does go out, and what comes back, for that payload. *)
Lemma convertVolumes_without_volumeIds_run :
  let data : obj :=
    {[ "instanceId" := Str "i-0aaa"; "accountId" := Scenarios.account;
       "region" := Str "us-east-1" ]} in
  let w := ChatBot.initial "session-1" in
  requests (exec (convertVolumes "" (Scenarios.serving []) data) w)
    = [mkRequest "/api/convert-volumes" "POST" (Some data)]
  /\ outcome (convertVolumes "" (Scenarios.serving []) data) w
    = Normal (mkApiResult "success" (Some tt) Undefined Undefined).
Proof. split; reflexivity. Qed.

End ApiFacts.

(* ===================================================================== *)
(** ** The instance table (InstanceDetailsTable.js)                       *)
(* ===================================================================== *)

Module TableFacts.
Import Js Rt Api ApiFacts.
Module T := InstanceDetailsTable.

(** *** Alarm configuration *)

Lemma alarm_success_updates_list BASE be accountId instance alarmConfig res (w : World) :
  alarmModal w = Some instance ->
  Spec.result_of (configureAlarms BASE be (T.alarmPayload instance accountId alarmConfig))
    = Normal res ->
  success res = true ->
  instances (exec (T.handleConfirmAlarmConfig BASE be (T.rendered BASE be accountId)
                     alarmConfig) w)
  = T.markAlarmsConfigured instance (instances w).
Proof.
  intros Hm Ho Hs.
  unfold T.handleConfirmAlarmConfig, T.handleConfirmAlarmConfig_try, T.callAddMessage,
    T.laterAddMessage, T.rendered, ChatBot.addMessage, T.platformName.
  cbn [T.p_onAddMessage T.p_setInstances T.p_accountId].
  run_handler. rewrite Hm. simpl. rewrite configureAlarms_run, Ho, Hs.
  split_paths.
Qed.

Lemma markAlarmsConfigured_frame (instance : obj) (prev : list obj) :
  let next := T.markAlarmsConfigured instance prev in
  length next = length prev /\
  forall (n : nat) (old : obj), prev !! n = Some old ->
    if strict_eq (get old "InstanceId") (get instance "InstanceId") then
      exists new : obj, next !! n = Some new
        /\ new !! "AlarmsConfigured" = Some (Bool true)
        /\ forall k, k <> "AlarmsConfigured" -> new !! k = old !! k
    else next !! n = Some old.
Proof.
  cbv zeta. unfold T.markAlarmsConfigured.
  match goal with |- context [map ?f prev] => change (map f prev) with (f <$> prev) end.
  split; [apply length_fmap|].
  intros n old Hn. rewrite list_lookup_fmap, Hn. simpl.
  destruct (strict_eq _ _); [|reflexivity].
  eexists. split; [reflexivity|]. unfold spread_with. split.
  - apply lookup_insert_eq.
  - intros k Hk. now apply lookup_insert_ne.
Qed.

(** C10: when [configureAlarms] resolves with [success] for the instance of
    the alarm modal, the instance list [handleConfirmAlarmConfig] leaves has
    the length of the one it found; an entry whose [InstanceId] is that of
    the instance has [AlarmsConfigured] set to [true] and every other
    property as before; every other entry is the entry it was. *)
Theorem alarm_success_marks_only_that_instance
    BASE be accountId (instance : obj) alarmConfig res (w : World) :
  alarmModal w = Some instance ->
  outcome (configureAlarms BASE be (T.alarmPayload instance accountId alarmConfig)) w
    = Normal res ->
  success res = true ->
  let next :=
    instances (exec (T.handleConfirmAlarmConfig BASE be (T.rendered BASE be accountId)
                       alarmConfig) w) in
  length next = length (instances w) /\
  forall (n : nat) (old : obj), instances w !! n = Some old ->
    if strict_eq (get old "InstanceId") (get instance "InstanceId") then
      exists new : obj, next !! n = Some new
        /\ new !! "AlarmsConfigured" = Some (Bool true)
        /\ forall k, k <> "AlarmsConfigured" -> new !! k = old !! k
    else next !! n = Some old.
Proof.
  intros Hm Ho Hs. cbv zeta.
  unfold outcome in Ho. rewrite configureAlarms_run in Ho. simpl in Ho.
  rewrite (alarm_success_updates_list _ _ _ _ _ _ _ Hm Ho Hs).
  apply markAlarmsConfigured_frame.
Qed.

(** C5, as the code has it: a 207 answer whose body reports
    [partialSuccess] and not [success] makes [configureAlarms] resolve, not
    throw, with [{ success: false, partialSuccess: true }];
    [handleConfirmAlarmConfig] then completes normally and leaves the
    instance list as it found it; when the body carries [alarmDetails], it
    arms the timer that appends the warning to the transcript. *)
Theorem partial_alarm_success_warns_and_keeps_instances
    BASE be accountId (instance : obj) alarmConfig st err body (w : World) :
  alarmModal w = Some instance ->
  missingRequired (T.alarmPayload instance accountId alarmConfig) = false ->
  configure_alarms be (T.alarmPayload instance accountId alarmConfig)
    = Responded (mkResponse 207 st (Some body) err) ->
  truthy (b_success body) = false ->
  truthy (b_partialSuccess body) = true ->
  let props := T.rendered BASE be accountId in
  let w' := exec (T.handleConfirmAlarmConfig BASE be props alarmConfig) w in
  outcome (configureAlarms BASE be (T.alarmPayload instance accountId alarmConfig)) w
    = Normal (mkAlarmResult false true (b_alarmMessage body) (b_alarmDetails body))
  /\ outcome (T.handleConfirmAlarmConfig BASE be props alarmConfig) w = Normal tt
  /\ instances w' = instances w
  /\ forall details, b_alarmDetails body = Some details ->
       let warning :=
         T.partialWarningText (successfulAlarms details) (totalAlarms details) instance in
       timers w' = timers w ++ [(500, AddMessage warning "bot")]
       /\ forall now v,
            messages (exec (T.fire BASE be props now (AddMessage warning "bot")) v)
            = messages v ++ [textMessage Bot warning].
Proof.
  intros Hm Hv Hr Hs Hp. cbv zeta.
  assert (Spec.result_of
            (configureAlarms BASE be (T.alarmPayload instance accountId alarmConfig))
          = Normal (mkAlarmResult false true (b_alarmMessage body) (b_alarmDetails body)))
    as Ho.
  { unfold Spec.result_of, configureAlarms, fetch_json. run_handler.
    rewrite Hv, Hr. simpl. rewrite Hs, Hp. reflexivity. }
  split; [unfold outcome; now rewrite configureAlarms_run|].
  unfold T.handleConfirmAlarmConfig, T.handleConfirmAlarmConfig_try, T.callAddMessage,
    T.laterAddMessage, T.rendered, ChatBot.addMessage, T.fire.
  cbn [T.p_onAddMessage T.p_setInstances T.p_accountId].
  run_handler. rewrite Hm. simpl. rewrite configureAlarms_run, Ho, Hv. simpl.
  destruct (b_alarmDetails body) as [d|]; simpl.
  - split; [reflexivity|]. split; [reflexivity|].
    intros details [= <-]. split; [reflexivity|]. intros now v. reflexivity.
  - split; [reflexivity|]. split; [reflexivity|]. intros details [=].
Qed.

(** A 207 answer whose body sets [success] beside [partialSuccess] is taken
    for a success: [configureAlarms] tests [response.ok && result.success]
    before it looks at the status, so the result is not the partial one, no
    warning is armed and the instance is marked [AlarmsConfigured]. *)
Lemma partial_flag_beside_success_marks_the_instance :
  let be := Scenarios.twoOfFourAsSuccess in
  let w := Scenarios.configuring [Scenarios.web1; Scenarios.web2] Scenarios.web1 in
  let payload := T.alarmPayload Scenarios.web1 Scenarios.account Undefined in
  let w' :=
    exec (T.handleConfirmAlarmConfig "" be (T.rendered "" be Scenarios.account) Undefined) w in
  ~ (Spec.partial_success_answer (configure_alarms be payload) ->
     (exists res, outcome (configureAlarms "" be payload) w = Normal res
                  /\ success res = false /\ partialSuccess res = true)
     /\ timers w' = timers w ++
          [(500, AddMessage (T.partialWarningText (Num 2) (Num 4) Scenarios.web1) "bot")]
     /\ Spec.alarmFlags (instances w') = Spec.alarmFlags (instances w)).
Proof.
  cbv zeta. intros H. destruct H as (_ & _ & Hf).
  - do 3 eexists. split; reflexivity.
  - vm_compute in Hf. discriminate.
Qed.

(** What the handler leaves at that answer: the first instance marked, the
    success text and a refresh armed. *)
Lemma partial_flag_beside_success_run :
  let be := Scenarios.twoOfFourAsSuccess in
  let w := Scenarios.configuring [Scenarios.web1; Scenarios.web2] Scenarios.web1 in
  let payload := T.alarmPayload Scenarios.web1 Scenarios.account Undefined in
  let w' :=
    exec (T.handleConfirmAlarmConfig "" be (T.rendered "" be Scenarios.account) Undefined) w in
  outcome (configureAlarms "" be payload) w
    = Normal (mkAlarmResult true false (Str "2 of 4 alarms created")
                (Some (mkAlarmDetails (Num 2) (Num 4) None)))
  /\ Spec.alarmFlags (instances w) = [Bool false; Bool false]
  /\ Spec.alarmFlags (instances w') = [Bool true; Bool false]
  /\ map fst (timers w') = [500; 2000].
Proof. repeat split; vm_compute; reflexivity. Qed.

(** A 207 answer with [partialSuccess] and without [alarmDetails]:
    [configureAlarms] resolves with the partial result, and the handler,
    reading [response.alarmDetails.successfulAlarms], ends in its [catch]:
    it arms the failure text, not the warning.  The instance list is
    kept. *)
Lemma partial_without_details_reports_failure :
  let be := Scenarios.partialWithoutDetails in
  let w := Scenarios.configuring [Scenarios.web1; Scenarios.web2] Scenarios.web1 in
  let payload := T.alarmPayload Scenarios.web1 Scenarios.account Undefined in
  let props := T.rendered "" be Scenarios.account in
  let w' := exec (T.handleConfirmAlarmConfig "" be props Undefined) w in
  outcome (configureAlarms "" be payload) w
    = Normal (mkAlarmResult false true (Str "Some alarms were not created") None)
  /\ outcome (T.handleConfirmAlarmConfig "" be props Undefined) w = Normal tt
  /\ instances w' = instances w
  /\ exists e, name e = "TypeError"
       /\ timers w' = [(500, AddMessage (T.alarmErrorText Scenarios.web1 e) "bot")].
Proof.
  cbv zeta. split; [reflexivity|]. split; [reflexivity|]. split; [reflexivity|].
  eexists. split; [|reflexivity]. reflexivity.
Qed.

Lemma alarm_success_witness :
  let w := Scenarios.configuring [Scenarios.web1; Scenarios.web2] Scenarios.web1 in
  let next :=
    instances (exec (T.handleConfirmAlarmConfig "" Scenarios.allFour
                       (T.rendered "" Scenarios.allFour Scenarios.account) Undefined) w) in
  alarmModal w = Some Scenarios.web1
  /\ length next = length (instances w)
  /\ forall (n : nat) (old : obj), instances w !! n = Some old ->
       if strict_eq (get old "InstanceId") (get Scenarios.web1 "InstanceId") then
         exists new : obj, next !! n = Some new
           /\ new !! "AlarmsConfigured" = Some (Bool true)
           /\ forall k, k <> "AlarmsConfigured" -> new !! k = old !! k
       else next !! n = Some old.
Proof.
  intros w next. split; [reflexivity|].
  apply (alarm_success_marks_only_that_instance "" Scenarios.allFour Scenarios.account
           Scenarios.web1 Undefined
           (mkAlarmResult true false (Str "4 alarms created")
              (Some (mkAlarmDetails (Num 4) (Num 4) None))) w);
    reflexivity.
Defined.

Lemma partial_alarm_success_witness :
  let w := Scenarios.configuring [Scenarios.web1; Scenarios.web2] Scenarios.web1 in
  let props := T.rendered "" Scenarios.twoOfFour Scenarios.account in
  let w' := exec (T.handleConfirmAlarmConfig "" Scenarios.twoOfFour props Undefined) w in
  alarmModal w = Some Scenarios.web1
  /\ outcome (T.handleConfirmAlarmConfig "" Scenarios.twoOfFour props Undefined) w = Normal tt
  /\ instances w' = [Scenarios.web1; Scenarios.web2]
  /\ timers w' =
       [(500, AddMessage (T.partialWarningText (Num 2) (Num 4) Scenarios.web1) "bot")].
Proof.
  intros w props w'.
  destruct (partial_alarm_success_warns_and_keeps_instances "" Scenarios.twoOfFour
              Scenarios.account Scenarios.web1 Undefined "Multi-Status" Undefined
              (mkAlarmsBody (Bool false) (Bool true) (Str "2 of 4 alarms created")
                 (Some (mkAlarmDetails (Num 2) (Num 4) None)))
              w)
    as (_ & Hn & Hi & Hd); try reflexivity.
  destruct (Hd (mkAlarmDetails (Num 2) (Num 4) None) eq_refl) as [Ht _].
  split; [reflexivity|]. split; [exact Hn|]. split; [exact Hi | exact Ht].
Defined.

(** *** Refreshing *)

(** What the refresh button does to the instance list and to the
    transcript, for the table as ChatBot renders it. *)
Lemma button_refresh_effect BASE be accountId now (w : World) :
  let w' := exec (T.handleRefreshInstances BASE be (T.rendered BASE be accountId) now) w in
  instances w' = default (instances w) (Spec.fetched BASE be accountId)
  /\ messages w' = messages w ++
       (if truthy accountId then [textMessage User T.refreshRequestText] else [])
  /\ (truthy accountId = true ->
      exists m, timers w' = timers w ++ [(500, AddMessage m "bot")]).
Proof.
  cbv zeta. unfold Spec.fetched, T.handleRefreshInstances, T.callAddMessage,
    T.laterAddMessage, T.rendered, ChatBot.addMessage.
  cbn [T.p_onAddMessage T.p_setInstances T.p_accountId].
  run_handler. destruct (truthy accountId) eqn:Ha; simpl.
  2: { rewrite List.app_nil_r. repeat split. discriminate. }
  rewrite discoverInstances_run, Ha. split_paths; repeat split; eauto.
Qed.

(** What the refresh ChatBot hands down as [onRefresh] does. *)
Lemma chat_refresh_effect BASE be (w : World) :
  let sel := selectedAccount w in
  let w' := exec (ChatBot.handleRefreshInstances BASE be) w in
  instances w' = default (instances w) (Spec.fetched BASE be sel)
  /\ messages w' =
       match Spec.fetched BASE be sel with
       | Some fresh => map (ChatBot.refreshTablePayload sel fresh) (messages w)
       | None => messages w
       end
  /\ selectedAccount w' = sel.
Proof.
  cbv zeta. unfold Spec.fetched, ChatBot.handleRefreshInstances.
  run_handler. destruct (truthy (selectedAccount w)) eqn:Ha; simpl.
  2: { repeat split. }
  rewrite discoverInstances_run, Ha. split_paths.
Qed.

Lemma refreshTablePayload_twice sel fresh m :
  ChatBot.refreshTablePayload sel fresh (ChatBot.refreshTablePayload sel fresh m)
  = ChatBot.refreshTablePayload sel fresh m.
Proof.
  unfold ChatBot.refreshTablePayload. destruct m as [f t ty d].
  destruct ty, d as [|groups|insts acc]; simpl; try reflexivity.
  destruct (strict_eq acc sel) eqn:E; simpl; now rewrite E.
Qed.

Lemma refreshTablePayload_length sel fresh (msgs : list Message) :
  length (map (ChatBot.refreshTablePayload sel fresh) msgs) = length msgs.
Proof. apply List.length_map. Qed.

(** C4, as the code has it: with the backend fixed, a second refresh leaves
    the instance list the first one left, for the refresh button and for the
    refresh of ChatBot alike.  The refresh of ChatBot appends nothing to the
    transcript, and a second run changes no message.  The refresh button
    appends its own message to the transcript at each press. *)
Theorem refresh_twice_same_instances BASE be accountId now1 now2 (w : World) :
  let button now := exec (T.handleRefreshInstances BASE be (T.rendered BASE be accountId) now) in
  let chat := exec (ChatBot.handleRefreshInstances BASE be) in
  instances (button now2 (button now1 w)) = instances (button now1 w)
  /\ instances (chat (chat w)) = instances (chat w)
  /\ messages (chat (chat w)) = messages (chat w)
  /\ length (messages (chat w)) = length (messages w)
  /\ messages (button now1 w) = messages w ++
       (if truthy accountId then [textMessage User T.refreshRequestText] else []).
Proof.
  cbv zeta.
  destruct (button_refresh_effect BASE be accountId now1 w) as (Hi1 & Hm1 & _).
  destruct (button_refresh_effect BASE be accountId now2
              (exec (T.handleRefreshInstances BASE be (T.rendered BASE be accountId) now1) w))
    as (Hi2 & _).
  destruct (chat_refresh_effect BASE be w) as (Hc1 & Hcm1 & Hs1).
  destruct (chat_refresh_effect BASE be (exec (ChatBot.handleRefreshInstances BASE be) w))
    as (Hc2 & Hcm2 & _).
  rewrite Hs1 in Hc2, Hcm2.
  repeat split.
  - rewrite Hi2, Hi1. now destruct (Spec.fetched BASE be accountId).
  - rewrite Hc2, Hc1. now destruct (Spec.fetched BASE be (selectedAccount w)).
  - rewrite Hcm2, Hcm1. destruct (Spec.fetched BASE be (selectedAccount w)); [|reflexivity].
    rewrite List.map_map. apply List.map_ext. intros m. apply refreshTablePayload_twice.
  - rewrite Hcm1. destruct (Spec.fetched BASE be (selectedAccount w)); [|reflexivity].
    apply refreshTablePayload_length.
  - exact Hm1.
Qed.

(** With the backend fixed, pressing the refresh button twice leaves its
    message twice in the transcript, once more than pressing it once. *)
Lemma refresh_button_repeats_its_message :
  let l := [Scenarios.web1; Scenarios.web2] in
  let be := Scenarios.serving l in
  let button := exec (T.handleRefreshInstances "" be (T.rendered "" be Scenarios.account) "10:00:00") in
  let once := button (Scenarios.managing l) in
  let twice := button once in
  ~ (instances twice = instances once
     /\ (Spec.refreshRequests (messages twice) <= Spec.refreshRequests (messages once))%nat).
Proof.
  cbv zeta. intros [_ H]. vm_compute in H. lia.
Qed.

(** *** The table and the transcript *)

Lemma tablePayloads_refreshed sel fresh (msgs : list Message) :
  Forall (fun payload => payload = fresh)
    (Spec.tablePayloads sel (map (ChatBot.refreshTablePayload sel fresh) msgs)).
Proof.
  unfold Spec.tablePayloads. induction msgs as [|m ms IH]; [constructor|].
  destruct m as [f t ty d]. unfold ChatBot.refreshTablePayload.
  destruct ty; destruct d as [|groups|insts acc]; simpl; auto.
  destruct (strict_eq acc sel) eqn:E; simpl; rewrite E; auto.
Qed.

(** After a refresh of ChatBot that fetched a list, the instance list and
    the payload of every table message of the selected account are that
    list. *)
Lemma chat_refresh_updates_both BASE be (w : World) fresh :
  Spec.fetched BASE be (selectedAccount w) = Some fresh ->
  let w' := exec (ChatBot.handleRefreshInstances BASE be) w in
  instances w' = fresh
  /\ Forall (fun payload => payload = instances w')
       (Spec.tablePayloads (selectedAccount w) (messages w')).
Proof.
  intros Hf. cbv zeta.
  destruct (chat_refresh_effect BASE be w) as (Hi & Hm & _).
  rewrite Hf in Hi, Hm. simpl in Hi. rewrite Hi, Hm. split; [reflexivity|].
  apply tablePayloads_refreshed.
Qed.

(** C6 at a concrete refresh: the account was selected while its one
    instance had no agent; the backend now reports the agent configured.
    After the refresh button's handler the table shows the fresh list, and
    the payload of the transcript's table message is still the old one.
    The refresh ChatBot passes as [onRefresh], which the table never calls,
    brings both to the fresh list. *)
Theorem refresh_button_leaves_payload_stale :
  let before := Scenarios.instance "i-0bbb" "running" false false in
  let after := Scenarios.instance "i-0bbb" "running" true false in
  let w := Scenarios.managing [before] in
  let be := Scenarios.serving [after] in
  let props := T.rendered "" be Scenarios.account in
  let button := exec (T.handleRefreshInstances "" be props "10:00:00") w in
  let chat := exec (ChatBot.handleRefreshInstances "" be) w in
  (instances button = [after]
   /\ Spec.tablePayloads Scenarios.account (messages button) = [[before]])
  /\ (instances chat = [after]
      /\ Spec.tablePayloads Scenarios.account (messages chat) = [[after]]).
Proof. cbv zeta. repeat split; reflexivity. Qed.

End TableFacts.

(* ===================================================================== *)
(** ** Stable insertion sorts                                             *)
(* ===================================================================== *)

Module SortFacts.
Import Js.

Lemma ForallOrdPairs_weaken {A} (R S : A -> A -> Prop) (l : list A) :
  (forall a b, R a b -> S a b) -> ForallOrdPairs R l -> ForallOrdPairs S l.
Proof.
  intros HRS. induction 1 as [|x l Hx _ IH]; constructor; [|exact IH].
  eapply Forall_impl; [exact Hx | auto].
Qed.

Section ByKey.
Context {A : Type} (comparefn : A -> A -> Z) (key : A -> Z).

(** [comparefn] calls [a] less than [b] exactly when the key of [a] is
    the lower one. *)
Hypothesis less_is_lower : forall a b, (comparefn a b <? 0) = (key a <? key b).

Local Abbreviation ascending := (Spec.ascending key).

Lemma insert_lt_permutation x s : Permutation (x :: s) (insert_lt comparefn x s).
Proof.
  induction s as [|y ys IH]; simpl; [reflexivity|].
  destruct (comparefn y x <? 0); [|reflexivity].
  rewrite perm_swap. now constructor.
Qed.

Lemma sort_lt_permutation l : Permutation l (sort_lt comparefn l).
Proof.
  induction l as [|x l IH]; simpl; [reflexivity|].
  rewrite <- insert_lt_permutation. now constructor.
Qed.

Lemma insert_lt_ascending x s : ascending s -> ascending (insert_lt comparefn x s).
Proof.
  unfold Spec.ascending. induction 1 as [|y ys Hy Hys IH]; simpl.
  - repeat constructor.
  - rewrite less_is_lower. destruct (Z.ltb_spec (key y) (key x)) as [Hlt | Hge].
    + constructor; [|exact IH].
      eapply Permutation_Forall; [apply insert_lt_permutation|].
      constructor; [lia | exact Hy].
    + constructor; [|now constructor].
      constructor; [lia|]. eapply Forall_impl; [exact Hy|]. simpl. intros. lia.
Qed.

Lemma sort_lt_ascending l : ascending (sort_lt comparefn l).
Proof.
  induction l as [|x l IH]; simpl; [constructor | now apply insert_lt_ascending].
Qed.

(** Elements of one key keep their order. *)
Lemma insert_lt_stable v x s :
  filter (fun a => key a = v) (insert_lt comparefn x s)
  = filter (fun a => key a = v) (x :: s).
Proof.
  induction s as [|y ys IH]; simpl; [reflexivity|].
  rewrite less_is_lower. destruct (Z.ltb_spec (key y) (key x)) as [Hlt | Hge];
    [|reflexivity].
  rewrite !filter_cons in *. rewrite IH.
  repeat case_decide; try reflexivity; lia.
Qed.

Lemma sort_lt_stable v l :
  filter (fun a => key a = v) (sort_lt comparefn l) = filter (fun a => key a = v) l.
Proof.
  induction l as [|x l IH]; simpl; [reflexivity|].
  rewrite insert_lt_stable, !filter_cons. now rewrite IH.
Qed.
End ByKey.

Section Agreement.
Context {A : Type} (comparefn : A -> A -> Z).

Local Abbreviation agree := (Spec.agree comparefn).

Lemma insert_gt_insert_lt x s :
  Forall (agree x) s -> insert_gt comparefn x s = insert_lt comparefn x s.
Proof.
  induction 1 as [|y ys Hy _ IH]; simpl; [reflexivity|].
  unfold Spec.agree in Hy. rewrite Hy, IH. reflexivity.
Qed.

Lemma sort_gt_sort_lt l :
  ForallOrdPairs agree l -> sort_gt comparefn l = sort_lt comparefn l.
Proof.
  induction 1 as [|x l Hx _ IH]; simpl; [reflexivity|].
  rewrite IH. apply insert_gt_insert_lt.
  eapply Permutation_Forall; [|exact Hx].
  clear. induction l as [|y l IH]; simpl; [reflexivity|].
  etransitivity; [apply perm_skip, IH|].
  clear IH. induction (sort_lt comparefn l) as [|z zs IH]; simpl; [reflexivity|].
  destruct (comparefn z y <? 0); [|reflexivity].
  rewrite perm_swap. now constructor.
Qed.
End Agreement.

End SortFacts.

(* ===================================================================== *)
(** ** The order of the instance table                                    *)
(* ===================================================================== *)

Module TableOrderFacts.
Import Js Rt SortFacts.
Module T := InstanceDetailsTable.

Lemma tier_range i : 0 <= Spec.tier i <= 2.
Proof.
  unfold Spec.tier. destruct (T.st_status (T.getInstanceStatus i)); simpl; lia.
Qed.

Lemma precedes_sortKey a b : Spec.precedes a b <-> Spec.sortKey a < Spec.sortKey b.
Proof.
  unfold Spec.precedes, Spec.sortKey.
  destruct (Spec.running a), (Spec.running b); split; intros H; lia.
Qed.

Lemma tied_sortKey a b : Spec.tied a b <-> Spec.sortKey b = Spec.sortKey a.
Proof.
  unfold Spec.tied, Spec.sortKey.
  destruct (Spec.running a), (Spec.running b); split; intros H; lia.
Qed.

(** The comparator calls [a] less than [b] exactly when [a] has to come
    before [b]. *)
Lemma comparator_less a b :
  (T.comparator a b <? 0) = (Spec.sortKey a <? Spec.sortKey b).
Proof.
  pose proof (tier_range a). pose proof (tier_range b).
  unfold T.comparator, Spec.sortKey, Spec.running, strict_eq.
  fold (Spec.tier a). fold (Spec.tier b).
  destruct (Z.eqb_spec (Spec.tier a) (Spec.tier b)) as [Ht | Ht]; simpl.
  2: { repeat case_bool_decide; lia. }
  repeat case_bool_decide; simpl; try congruence; lia.
Qed.

(** It calls [a] greater than [b] when [b] has to come before [a], and,
    beyond that, when both are stopped in different ways. *)
Lemma comparator_greater a b :
  Spec.consistent_on a b ->
  (0 <? T.comparator a b) = (Spec.sortKey b <? Spec.sortKey a).
Proof.
  pose proof (tier_range a). pose proof (tier_range b).
  unfold Spec.consistent_on, T.comparator, Spec.sortKey, Spec.running, strict_eq.
  fold (Spec.tier a). fold (Spec.tier b). intros Hc.
  destruct (Z.eqb_spec (Spec.tier a) (Spec.tier b)) as [Ht | Ht]; simpl.
  2: { repeat case_bool_decide; lia. }
  destruct Hc as [Hc | [Hc | [Hc | Hc]]]; [contradiction | | |];
    repeat case_bool_decide; simpl; try congruence; try lia; try discriminate.
Qed.

(** An engine that asks whether the later is less than the earlier puts
    every list in table order. *)
Lemma sort_lt_table_sorted l : Spec.table_sorted l (T.sortedInstances sort_lt l).
Proof.
  unfold Spec.table_sorted, T.sortedInstances. split; [|split].
  - apply (sort_lt_permutation T.comparator).
  - pose proof (sort_lt_ascending T.comparator Spec.sortKey comparator_less l) as H.
    unfold Spec.ascending in H.
    eapply ForallOrdPairs_weaken; [|exact H].
    simpl. intros a b Hab. rewrite precedes_sortKey. lia.
  - intros a.
    rewrite !(list_filter_iff (Spec.tied a) (fun b => Spec.sortKey b = Spec.sortKey a))
      by (intros; apply tied_sortKey).
    apply (sort_lt_stable T.comparator Spec.sortKey comparator_less).
Qed.

(** The table is in order on every engine when the comparator is
    consistent on the list: within a tier, the instances that do not run
    are all in one state. *)
Lemma sortedInstances_table_sorted l :
  ForallOrdPairs Spec.consistent_on l ->
  Spec.table_sorted l (T.sortedInstances sort_lt l)
  /\ T.sortedInstances sort_gt l = T.sortedInstances sort_lt l.
Proof.
  intros Hc. split; [apply sort_lt_table_sorted|].
  unfold T.sortedInstances. apply sort_gt_sort_lt.
  eapply ForallOrdPairs_weaken; [|exact Hc].
  intros a b Hab. unfold Spec.agree.
  rewrite comparator_greater, comparator_less by exact Hab. reflexivity.
Qed.

(** Instances of tiers 2, 0 and 1 come out in the order of the tiers,
    whatever their states. *)
Lemma sortedInstances_by_tier (sa sb sc : string) :
  let a := Scenarios.instance "i-a" sa true true in
  let b := Scenarios.instance "i-b" sb false false in
  let c := Scenarios.instance "i-c" sc true false in
  Spec.tier a = 2 /\ Spec.tier b = 0 /\ Spec.tier c = 1
  /\ T.sortedInstances sort_lt [a; b; c] = [b; c; a]
  /\ T.sortedInstances sort_gt [a; b; c] = [b; c; a].
Proof. cbv zeta. repeat split; reflexivity. Qed.

(** C2 at a concrete list: a stopped and a terminated instance of the
    lowest tier.  The comparator calls each of them greater than the other,
    so the order [sort] leaves them in is up to the engine: one that asks
    whether the later is less than the earlier keeps them in place, one that
    asks whether the earlier is greater than the later swaps them, and the
    table is then not in the order of the list. *)
Theorem sortedInstances_swaps_stopped_and_terminated :
  let a := Scenarios.old1 in
  let b := Scenarios.old2 in
  Spec.tied a b
  /\ T.comparator a b = 1 /\ T.comparator b a = 1
  /\ T.sortedInstances sort_lt [a; b] = [a; b]
  /\ T.sortedInstances sort_gt [a; b] = [b; a]
  /\ ~ Spec.table_sorted [a; b] (T.sortedInstances sort_gt [a; b]).
Proof.
  cbv zeta. repeat split; try reflexivity.
  intros (_ & _ & H). specialize (H Scenarios.old1).
  apply (f_equal (map (fun o => get o "InstanceId"))) in H.
  vm_compute in H. discriminate.
Qed.

End TableOrderFacts.

(* ===================================================================== *)
(** ** The volume conversion modal (VolumeConversionModal.js)             *)
(* ===================================================================== *)

Module ModalFacts.
Import Js.
Module V := VolumeConversionModal.

(** The gp3 branch computes the clamped values. *)
Lemma gp3Settings_formula size :
  V.iops (V.gp3Settings size) = Spec.clamp (size * 3) 3000 16000
  /\ V.throughput (V.gp3Settings size)
     = Some (Spec.clamp (V.iops (V.gp3Settings size) / 4) 125 1000).
Proof. split; reflexivity. Qed.

Lemma gp3Settings_100 : V.gp3Settings 100 = V.mkSettings 3000 (Some 750).
Proof. reflexivity. Qed.

(** C3 at the size of 100 GB: [volumeTypeOptions] has no entry for gp3 (and
    none that supports custom settings), so [calculateOptimalSettings]
    returns [null] for every size and target type, the gp3 branch is never
    reached, and [proceedToConfiguration] leaves both fields empty. *)
Theorem calculateOptimalSettings_never_reaches_gp3 :
  (forall size targetType, V.calculateOptimalSettings size targetType = None)
  /\ V.calculateOptimalSettings 100 "gp3" = None
  /\ let s := V.proceedToConfiguration Scenarios.oneVolumeSelected in
     V.step s = V.configuration
     /\ V.customIops s = "" /\ V.customThroughput s = "".
Proof.
  split; [|repeat split; reflexivity].
  intros size targetType. unfold V.calculateOptimalSettings, V.volumeTypeOptions.
  cbn [List.find V.opt_value]. now destruct (String.eqb "gp2" targetType).
Qed.

End ModalFacts.
